(** * react-single-tab: the lease protocol of [useSingleTabEnforcer]

    A shallow embedding of the three versions of the hook found in the
    repository (src/unnamed/part_001, part_002 and part_003) together with
    the part of the browser they talk to: [localStorage], [JSON],
    [Date.now], [setTimeout], [document.visibilityState] and the
    [BroadcastChannel] of the hook.

    Conventions of the model.
    - JavaScript numbers are integers ([Z]) or [NaN]: timestamps come from
      [Date.now()], which is an integer number of milliseconds, and the
      timeout is a number of milliseconds.
    - A text kept in [localStorage] is represented by what [JSON.parse]
      does with it: [JsonText v] is a text that parses to the value [v],
      [Text s] is a text [s] on which [JSON.parse] throws.
    - What the hook does to the outside (calls of [localStorage], user
      callbacks, posted messages, timers, debug lines) is recorded in the
      [World], next to the state of the hook. *)

From Stdlib Require Import ZArith String List Bool Lia.
From stdpp Require Import base option list gmap strings.
Import ListNotations.

Local Open Scope string_scope.
Local Open Scope Z_scope.
Local Open Scope list_scope.

(** ** JavaScript values *)

(** The values [JSON.parse] can return. An object keeps its members in the
    order of the text. *)
#[warnings="-register-all"]
Inductive JsValue : Type :=
| JNull
| JBool (b : bool)
| JNum (n : Z)
| JStr (s : string)
| JArr (elems : list JsValue)
| JObj (props : list (string * JsValue)).

Inductive JsNumber : Type :=
| Num (n : Z)
| NaN.

(** Conversions of the host that are not arithmetic on integers: the number
    a string stands for, and the number an array or object converts to.
    Both are total here. In JavaScript the conversion of an object throws
    [TypeError] when the object has an own member [toString] (a member
    parsed from JSON is never a function), and the conversion of an array
    when it holds such an object; the conversion of a string can give a
    number that is not an integer. [exact_check] below tells where the
    model computes what JavaScript computes, and the theorems that depend
    on the conversion assume it. *)
Class JsHost : Type := {
  StringToNumber : string -> JsNumber;
  ObjectToNumber : JsValue -> JsNumber
}.

(** [!v] is [negb (truthy v)]. *)
Definition truthy (v : JsValue) : bool :=
  match v with
  | JNull => false
  | JBool b => b
  | JNum n => negb (n =? 0)
  | JStr EmptyString => false
  | JStr _ => true
  | JArr _ => true
  | JObj _ => true
  end.

(** The member named [name] written last in the text wins. *)
Fixpoint lookup_prop (props : list (string * JsValue)) (name : string)
  : option JsValue :=
  match props with
  | [] => None
  | (k, v) :: rest =>
      match lookup_prop rest name with
      | Some v' => Some v'
      | None => if String.eqb k name then Some v else None
      end
  end.

(** [v.name] for the two names the hook reads, [id] and [timestamp]; [None]
    is [undefined]. Only an object parsed from JSON has such a property. *)
Definition get_prop (v : JsValue) (name : string) : option JsValue :=
  match v with
  | JObj props => lookup_prop props name
  | _ => None
  end.

Definition ToNumber `{JsHost} (x : option JsValue) : JsNumber :=
  match x with
  | None => NaN
  | Some JNull => Num 0
  | Some (JBool b) => Num (if b then 1 else 0)
  | Some (JNum n) => Num n
  | Some (JStr s) => StringToNumber s
  | Some v => ObjectToNumber v
  end.

(** [now - x > limit]; a comparison with [NaN] is false. The difference is
    the difference of integers: it is the difference JavaScript computes
    when the integers are safe ([safe_integer] below). *)
Definition minus_gt (now : Z) (x : JsNumber) (limit : Z) : bool :=
  match x with
  | Num n => limit <? now - n
  | NaN => false
  end.

(** [x === s] for a string [s]. *)
Definition strict_eq_str (x : option JsValue) (s : string) : bool :=
  match x with
  | Some (JStr s') => String.eqb s' s
  | _ => false
  end.

(** ** The persisted record *)

Record TabRecord : Type := { id : string; timestamp : Z }.

Inductive StorageValue : Type :=
| Text (s : string)
| JsonText (v : JsValue).

Definition record_value (r : TabRecord) : JsValue :=
  JObj [("id", JStr (id r)); ("timestamp", JNum (timestamp r))].

Definition JSON_stringify (r : TabRecord) : StorageValue :=
  JsonText (record_value r).

(** A string is truthy when it is not empty. *)
Definition nonempty_text (t : StorageValue) : bool :=
  match t with
  | Text EmptyString => false
  | _ => true
  end.

(** ** The world *)

Inductive Error : Type :=
| SecurityError
| QuotaExceededError
| SyntaxError
| InvalidStateError.

Inductive Result (A : Type) : Type :=
| Ok (a : A)
| Throw (e : Error).
Arguments Ok {A} a.
Arguments Throw {A} e.

Inductive StorageCall : Type :=
| GetItem (key : string)
| SetItem (key : string) (value : StorageValue)
| RemoveItem (key : string).

Inductive Outcome : Type := Returned | Threw.

Inductive Callback : Type := OnBecomeLeader | OnLoseLeadership | OnTabDetected.

Inductive Task : Type := CheckLeadership.

Inductive Message : Type := TabClosing (tab : string).

(** Which methods of [localStorage] throw (storage denied, quota reached). *)
Record Faults : Type := {
  getItem_throws : bool;
  setItem_throws : bool;
  removeItem_throws : bool
}.

(** The React state and the refs of one hook instance. *)
Record Hook : Type := {
  isLeader : bool;
  tabCount : Z;
  isChecking : bool;
  previousLeaderState : bool
}.

Record World : Type := {
  items : gmap string StorageValue;
  faults : Faults;
  clock : Z;
  hidden : bool;
  hook : Hook;
  timers : list (Task * Z);
  calls : list (StorageCall * Outcome);
  fired : list Callback;
  posted : list Message;
  console : list string
}.

Definition with_items (f : gmap string StorageValue -> gmap string StorageValue)
  (w : World) : World :=
  {| items := f (items w); faults := faults w; clock := clock w;
     hidden := hidden w; hook := hook w; timers := timers w;
     calls := calls w; fired := fired w; posted := posted w;
     console := console w |}.

Definition with_hook (f : Hook -> Hook) (w : World) : World :=
  {| items := items w; faults := faults w; clock := clock w;
     hidden := hidden w; hook := f (hook w); timers := timers w;
     calls := calls w; fired := fired w; posted := posted w;
     console := console w |}.

Definition with_timers (f : list (Task * Z) -> list (Task * Z)) (w : World)
  : World :=
  {| items := items w; faults := faults w; clock := clock w;
     hidden := hidden w; hook := hook w; timers := f (timers w);
     calls := calls w; fired := fired w; posted := posted w;
     console := console w |}.

Definition with_calls
  (f : list (StorageCall * Outcome) -> list (StorageCall * Outcome))
  (w : World) : World :=
  {| items := items w; faults := faults w; clock := clock w;
     hidden := hidden w; hook := hook w; timers := timers w;
     calls := f (calls w); fired := fired w; posted := posted w;
     console := console w |}.

Definition with_fired (f : list Callback -> list Callback) (w : World)
  : World :=
  {| items := items w; faults := faults w; clock := clock w;
     hidden := hidden w; hook := hook w; timers := timers w;
     calls := calls w; fired := f (fired w); posted := posted w;
     console := console w |}.

Definition with_posted (f : list Message -> list Message) (w : World)
  : World :=
  {| items := items w; faults := faults w; clock := clock w;
     hidden := hidden w; hook := hook w; timers := timers w;
     calls := calls w; fired := fired w; posted := f (posted w);
     console := console w |}.

Definition with_console (f : list string -> list string) (w : World) : World :=
  {| items := items w; faults := faults w; clock := clock w;
     hidden := hidden w; hook := hook w; timers := timers w;
     calls := calls w; fired := fired w; posted := posted w;
     console := f (console w) |}.

Definition with_clock (f : Z -> Z) (w : World) : World :=
  {| items := items w; faults := faults w; clock := f (clock w);
     hidden := hidden w; hook := hook w; timers := timers w;
     calls := calls w; fired := fired w; posted := posted w;
     console := console w |}.

Definition with_faults (f : Faults -> Faults) (w : World) : World :=
  {| items := items w; faults := f (faults w); clock := clock w;
     hidden := hidden w; hook := hook w; timers := timers w;
     calls := calls w; fired := fired w; posted := posted w;
     console := console w |}.

Definition with_hidden (f : bool -> bool) (w : World) : World :=
  {| items := items w; faults := faults w; clock := clock w;
     hidden := f (hidden w); hook := hook w; timers := timers w;
     calls := calls w; fired := fired w; posted := posted w;
     console := console w |}.

(** ** Computations: state of the world and exceptions *)

Definition M (A : Type) : Type := World -> Result A * World.

#[export] Instance M_ret : MRet M := fun A a w => (Ok a, w).

#[export] Instance M_bind : MBind M := fun A B f m w =>
  match m w with
  | (Ok a, w') => f a w'
  | (Throw e, w') => (Throw e, w')
  end.

(** [try { m } catch (error) { handler error }] *)
Definition try_catch {A : Type} (m : M A) (handler : Error -> M A) : M A :=
  fun w =>
    match m w with
    | (Ok a, w') => (Ok a, w')
    | (Throw e, w') => handler e w'
    end.

Definition throw {A : Type} (e : Error) : M A := fun w => (Throw e, w).

Definition gets {A : Type} (f : World -> A) : M A := fun w => (Ok (f w), w).

Definition modify (f : World -> World) : M unit := fun w => (Ok tt, f w).

Definition outcome {A : Type} (m : M A) (w : World) : Result A := fst (m w).
Definition exec {A : Type} (m : M A) (w : World) : World := snd (m w).

(** The calls of [localStorage] made between [w] and a later world [w']. *)
Definition new_calls (w w' : World) : list (StorageCall * Outcome) :=
  drop (length (calls w)) (calls w').

Definition new_fired (w w' : World) : list Callback :=
  drop (length (fired w)) (fired w').

(** ** The browser *)

Definition note_call (c : StorageCall) (o : Outcome) : M unit :=
  modify (with_calls (fun l => l ++ [(c, o)])).

Definition localStorage_getItem (key : string) : M (option StorageValue) :=
  throws ← gets (fun w => getItem_throws (faults w));
  if throws : bool then note_call (GetItem key) Threw;; throw SecurityError
  else
    note_call (GetItem key) Returned;;
    gets (fun w => items w !! key).

Definition localStorage_setItem (key : string) (value : StorageValue) : M unit :=
  throws ← gets (fun w => setItem_throws (faults w));
  if throws : bool then
    note_call (SetItem key value) Threw;; throw QuotaExceededError
  else
    note_call (SetItem key value) Returned;;
    modify (with_items (insert key value)).

Definition localStorage_removeItem (key : string) : M unit :=
  throws ← gets (fun w => removeItem_throws (faults w));
  if throws : bool then note_call (RemoveItem key) Threw;; throw SecurityError
  else
    note_call (RemoveItem key) Returned;;
    modify (with_items (delete key)).

Definition JSON_parse (t : StorageValue) : M JsValue :=
  match t with
  | Text _ => throw SyntaxError
  | JsonText v => mret v
  end.

Definition Date_now : M Z := gets clock.

Definition setTimeout (task : Task) (delay : Z) : M unit :=
  modify (with_timers (fun l => l ++ [(task, delay)])).

Definition call (c : Callback) : M unit :=
  modify (with_fired (fun l => l ++ [c])).

Definition postMessage (m : Message) : M unit :=
  modify (with_posted (fun l => l ++ [m])).

(** src/utils.ts: [log] prints only when [debug] is set. *)
Definition log (debug : bool) (message : string) : M unit :=
  if debug then modify (with_console (fun l => l ++ [message])) else mret tt.

(** [useState] setters. *)
Definition setIsLeader (b : bool) : M unit :=
  modify (with_hook (fun h =>
    {| isLeader := b; tabCount := tabCount h; isChecking := isChecking h;
       previousLeaderState := previousLeaderState h |})).

Definition setTabCount (n : Z) : M unit :=
  modify (with_hook (fun h =>
    {| isLeader := isLeader h; tabCount := n; isChecking := isChecking h;
       previousLeaderState := previousLeaderState h |})).

Definition setIsChecking (b : bool) : M unit :=
  modify (with_hook (fun h =>
    {| isLeader := isLeader h; tabCount := tabCount h; isChecking := b;
       previousLeaderState := previousLeaderState h |})).

Definition set_previousLeaderState (b : bool) : M unit :=
  modify (with_hook (fun h =>
    {| isLeader := isLeader h; tabCount := tabCount h;
       isChecking := isChecking h; previousLeaderState := b |})).

(** What the hook is given once and never changes: the id made by
    [generateTabId] at the first render ([tabId.current] is never assigned
    again) and the configuration. [storageKey] is the template
    [storagePrefix-appName]; [channel] tells whether the hook has opened a
    [BroadcastChannel] ([broadcastChannelRef.current] is set). *)
Record Config : Type := {
  tabId : string;
  storageKey : string;
  timeout : Z;
  interval : Z;
  debug : bool;
  channel : bool
}.

(** ** src/unnamed/part_001: the hook with callbacks, [BroadcastChannel],
       visibility handling and guarded storage access *)

Module Part001.
Section Hook.
Context `{JsHost} (cfg : Config).

Definition getCurrentRecord : M JsValue :=
  try_catch
    (stored ← localStorage_getItem (storageKey cfg);
     match stored with
     | Some text => if nonempty_text text then JSON_parse text else mret JNull
     | None => mret JNull
     end)
    (fun error =>
       log (debug cfg) "Error reading from localStorage:";;
       mret JNull).

Definition setTabRecord (record : TabRecord) : M unit :=
  try_catch
    (localStorage_setItem (storageKey cfg) (JSON_stringify record))
    (fun error => log (debug cfg) "Error writing to localStorage:").

Definition removeTabRecord : M unit :=
  try_catch
    (localStorage_removeItem (storageKey cfg))
    (fun error => log (debug cfg) "Error removing from localStorage:").

Definition checkLeadership : M unit :=
  setIsChecking true;;
  record ← getCurrentRecord;
  now ← Date_now;
  let currentTabId := tabId cfg in
  log (debug cfg) "Checking leadership:";;
  (if negb (truthy record)
      || minus_gt now (ToNumber (get_prop record "timestamp")) (timeout cfg)
   then
     log (debug cfg) "Claiming leadership - no record or expired";;
     setTabRecord {| id := currentTabId; timestamp := now |};;
     setIsLeader true;;
     setTabCount 1
   else if strict_eq_str (get_prop record "id") currentTabId then
     log (debug cfg) "Updating leadership timestamp";;
     setTabRecord {| id := currentTabId; timestamp := now |};;
     setIsLeader true;;
     setTabCount 1
   else
     log (debug cfg) "Another tab is leader:";;
     setIsLeader false;;
     setTabCount 2;;
     call OnTabDetected);;
  setIsChecking false.

Definition forceLeadership : M unit :=
  log (debug cfg) "Forcing leadership for tab:";;
  now ← Date_now;
  setTabRecord {| id := tabId cfg; timestamp := now |};;
  setIsLeader true;;
  setTabCount 1.

(** The effect on [isLeader] (lines 175-186). *)
Definition leaderStateEffect : M unit :=
  previous ← gets (fun w => previousLeaderState (hook w));
  leader ← gets (fun w => isLeader (hook w));
  if negb (Bool.eqb previous leader) then
    (if leader then
       log (debug cfg) "Tab became leader";;
       call OnBecomeLeader
     else
       log (debug cfg) "Tab lost leadership";;
       call OnLoseLeadership);;
    set_previousLeaderState leader
  else mret tt.

(** [event.data.type] of a message on the channel. *)
Definition handleMessage (type : string) : M unit :=
  log (debug cfg) "BroadcastChannel message received:";;
  if String.eqb type "leadership-change" then
    setTimeout CheckLeadership 100
  else mret tt.

(** [event.key] of a storage event; [None] is [null]. *)
Definition handleStorageChange (key : option string) : M unit :=
  match key with
  | Some k =>
      if String.eqb k (storageKey cfg) then
        log (debug cfg) "Storage change detected for key:";;
        checkLeadership
      else mret tt
  | None => mret tt
  end.

Definition cleanup : M unit :=
  let currentTabId := tabId cfg in
  record ← getCurrentRecord;
  (if truthy record && strict_eq_str (get_prop record "id") currentTabId then
     log (debug cfg) "Cleaning up tab record on unmount";;
     removeTabRecord
   else mret tt);;
  if channel cfg then postMessage (TabClosing currentTabId) else mret tt.

Definition handleBeforeUnload : M unit := cleanup.

Definition handleVisibilityChange : M unit :=
  let currentTabId := tabId cfg in
  is_hidden ← gets hidden;
  if is_hidden : bool then
    log (debug cfg) "Tab became hidden, updating timestamp";;
    leader ← gets (fun w => isLeader (hook w));
    if leader : bool then
      now ← Date_now;
      setTabRecord {| id := currentTabId; timestamp := now |}
    else mret tt
  else mret tt.

(** What happens to one mounted hook: a handler runs to its end, then React
    renders again and, if [isLeader] is not what the previous render saw,
    runs the effects that list it in their dependencies. There are two: the
    one above, and the last effect of the hook, whose destructor calls
    [cleanup] before the listeners are registered again. Destructors run
    before effect bodies. The callbacks of the configuration are taken to be
    the same functions at every render (as the defaults are), so that
    [checkLeadership] is the same function and no other effect runs again;
    [Part001_react] below follows the renders when they are not.

    [Check] is a tick of the interval or a call of the returned
    [checkLeadership]; [Force] a call of the returned [forceLeadership];
    [TimeoutFires] the oldest pending [setTimeout] coming due. *)
Inductive Action : Type :=
| Check
| Force
| StorageEvent (key : option string)
| ChannelMessage (type : string)
| VisibilityChange
| BeforeUnload
| TimeoutFires.

Definition run_task (t : Task) : M unit :=
  match t with
  | CheckLeadership => checkLeadership
  end.

(** The oldest pending [setTimeout] comes due. *)
Definition fire_timeout : M unit :=
  pending ← gets timers;
  match pending with
  | [] => mret tt
  | (task, _) :: rest => modify (with_timers (fun _ => rest));; run_task task
  end.

Definition handler (a : Action) : M unit :=
  match a with
  | Check => checkLeadership
  | Force => forceLeadership
  | StorageEvent key => handleStorageChange key
  | ChannelMessage type => handleMessage type
  | VisibilityChange => handleVisibilityChange
  | BeforeUnload => handleBeforeUnload
  | TimeoutFires => fire_timeout
  end.

Definition commit (rendered : bool) : M unit :=
  leader ← gets (fun w => isLeader (hook w));
  if negb (Bool.eqb rendered leader) then cleanup;; leaderStateEffect
  else mret tt.

Definition dispatch (a : Action) : M unit :=
  rendered ← gets (fun w => isLeader (hook w));
  handler a;;
  commit rendered.

(** The first render and its effects: the effect on [isLeader] finds
    nothing to report, the periodic effect makes the initial check. *)
Definition mount : M unit :=
  rendered ← gets (fun w => isLeader (hook w));
  leaderStateEffect;;
  checkLeadership;;
  commit rendered.

(** [cleanup] when the destructor of the channel effect has run before it
    in the same commit (lines 207-210): the ref still holds the channel,
    which is closed by then, and [postMessage] on a closed channel throws
    [InvalidStateError]. The record is read and removed before that. *)
Definition cleanup_closed : M unit :=
  let currentTabId := tabId cfg in
  record ← getCurrentRecord;
  (if truthy record && strict_eq_str (get_prop record "id") currentTabId then
     log (debug cfg) "Cleaning up tab record on unmount";;
     removeTabRecord
   else mret tt);;
  if channel cfg then throw InvalidStateError else mret tt.

(** Unmounting runs the destructors in the order of the effects: the one of
    the channel effect closes the channel, the one of the last effect then
    calls [cleanup]. *)
Definition unmount : M unit := cleanup_closed.

End Hook.
End Part001.

(** ** src/unnamed/part_001: renders when the callbacks are new functions *)

(** [Part001.commit] above is the render of a hook whose callbacks
    ([onBecomeLeader], [onLoseLeadership], [onTabDetected]) are the same
    functions at every render, as the defaults are (lines 51-53). Callbacks
    written inline in the call of the hook are new functions at every
    render: then [checkLeadership] is a new function at every render
    (line 164), and every render re-runs the channel effect, the storage
    effect and the periodic effect as well (lines 211, 227, 242), whose
    first act is a check (line 232). React runs the destructors first, in
    the order of the effects, then the effects: the channel is closed
    before the destructor of the last effect calls [cleanup].

    [renders] follows the renders until one shows the state of the one
    before. [stable] tells whether the callbacks keep their identity;
    [fuel] bounds the number of renders followed when they do not, and the
    result tells whether the renders came to rest. An error thrown by a
    destructor reaches React; the model stops there. *)
Module Part001_react.
Section Hook.
Context `{JsHost} (cfg : Config).

(** The state a render shows; React renders again when a handler or an
    effect has left another one. *)
Definition shown (w : World) : bool * Z * bool :=
  (isLeader (hook w), tabCount (hook w), isChecking (hook w)).

Definition same_shown (a b : bool * Z * bool) : bool :=
  let '(l1, n1, c1) := a in
  let '(l2, n2, c2) := b in
  Bool.eqb l1 l2 && (n1 =? n2) && Bool.eqb c1 c2.

Fixpoint renders (stable : bool) (fuel : nat) (rendered : bool * Z * bool)
  : M bool :=
  current ← gets shown;
  if same_shown rendered current then mret true
  else
    let leader_changed :=
      negb (Bool.eqb (fst (fst rendered)) (fst (fst current))) in
    if stable then
      (if leader_changed
       then Part001.cleanup cfg;; Part001.leaderStateEffect cfg
       else mret tt);;
      mret true
    else
      match fuel with
      | O => mret false
      | S n =>
          (if leader_changed then Part001.cleanup_closed cfg else mret tt);;
          Part001.leaderStateEffect cfg;;
          Part001.checkLeadership cfg;;
          renders stable n current
      end.

(** A handler and the renders after it. *)
Definition dispatch (stable : bool) (fuel : nat) (a : Part001.Action)
  : M bool :=
  rendered ← gets shown;
  Part001.handler cfg a;;
  renders stable fuel rendered.

(** The first render, its effects, and the renders after it. *)
Definition mount (stable : bool) (fuel : nat) : M bool :=
  rendered ← gets shown;
  Part001.leaderStateEffect cfg;;
  Part001.checkLeadership cfg;;
  renders stable fuel rendered.

End Hook.
End Part001_react.

(** ** src/unnamed/part_002: the short hook, one [try] around the check *)

Module Part002.
Section Hook.
Context `{JsHost} (cfg : Config).

Definition console_error (message : string) : M unit :=
  modify (with_console (fun l => l ++ [message])).

Definition checkLeadership : M unit :=
  try_catch
    (stored ← localStorage_getItem (storageKey cfg);
     data ← match stored with
            | Some text =>
                if nonempty_text text then JSON_parse text else mret JNull
            | None => mret JNull
            end;
     now ← Date_now;
     if negb (truthy data)
        || minus_gt now (ToNumber (get_prop data "timestamp")) (timeout cfg)
        || strict_eq_str (get_prop data "id") (tabId cfg)
     then
       localStorage_setItem (storageKey cfg)
         (JSON_stringify {| id := tabId cfg; timestamp := now |});;
       setIsLeader true
     else
       setIsLeader false)
    (fun error =>
       console_error "SingleTab error:";;
       setIsLeader true).

Definition handleStorage (key : option string) : M unit :=
  match key with
  | Some k =>
      if String.eqb k (storageKey cfg) then setTimeout CheckLeadership 100
      else mret tt
  | None => mret tt
  end.

(** The destructor of the effect, without the two deregistrations. *)
Definition effect_cleanup : M unit :=
  stored ← localStorage_getItem (storageKey cfg);
  data ← match stored with
         | Some text =>
             if nonempty_text text then JSON_parse text else mret JNull
         | None => mret JNull
         end;
  if truthy data && strict_eq_str (get_prop data "id") (tabId cfg) then
    localStorage_removeItem (storageKey cfg)
  else mret tt.

Definition forceLeadership : M unit :=
  now ← Date_now;
  localStorage_setItem (storageKey cfg)
    (JSON_stringify {| id := tabId cfg; timestamp := now |});;
  setIsLeader true.

End Hook.
End Part002.

(** ** src/unnamed/part_003: the short hook whose effect depends on
       [isLeader] *)

Module Part003.
Section Hook.
Context `{JsHost} (cfg : Config).

Definition console_error (message : string) : M unit :=
  modify (with_console (fun l => l ++ [message])).

Definition checkLeadership : M unit :=
  try_catch
    (stored ← localStorage_getItem (storageKey cfg);
     data ← match stored with
            | Some text =>
                if nonempty_text text then JSON_parse text else mret JNull
            | None => mret JNull
            end;
     now ← Date_now;
     if negb (truthy data)
        || minus_gt now (ToNumber (get_prop data "timestamp")) (timeout cfg)
     then
       localStorage_setItem (storageKey cfg)
         (JSON_stringify {| id := tabId cfg; timestamp := now |});;
       setIsLeader true
     else if strict_eq_str (get_prop data "id") (tabId cfg) then
       localStorage_setItem (storageKey cfg)
         (JSON_stringify {| id := tabId cfg; timestamp := now |})
     else
       setIsLeader false)
    (fun error =>
       console_error "SingleTab error:";;
       setIsLeader true).

Definition handleStorage (key : option string) : M unit :=
  match key with
  | Some k =>
      if String.eqb k (storageKey cfg) then setTimeout CheckLeadership 100
      else mret tt
  | None => mret tt
  end.

(** The destructor of the effect, without the two deregistrations. The
    [isLeader] it reads is the one of the render that created the effect. *)
Definition effect_cleanup (rendered_isLeader : bool) : M unit :=
  if rendered_isLeader then localStorage_removeItem (storageKey cfg)
  else mret tt.

(** Unmounting runs the destructor of the effect of the last render. *)
Definition unmount : M unit :=
  rendered ← gets (fun w => isLeader (hook w));
  effect_cleanup rendered.

Definition forceLeadership : M unit :=
  now ← Date_now;
  localStorage_setItem (storageKey cfg)
    (JSON_stringify {| id := tabId cfg; timestamp := now |});;
  setIsLeader true.

End Hook.
End Part003.

(** ** src/unnamed/part_001, line 104: the key of the hook *)

(** The template [storagePrefix-appName]. *)
Definition make_storageKey (storagePrefix appName : string) : string :=
  storagePrefix ++ "-" ++ appName.

(** ** src/unnamed/part_003: the renders that follow a check *)

(** The effect of part_003 lists [isLeader] among its dependencies
    (line 78). When a render sees another [isLeader] than the render before
    it, React runs the destructor of the old effect, which reads the
    [isLeader] of the render that created it, and then the effect again,
    whose first act is a check (line 55). [renders] follows this until a
    render sees the [isLeader] of the one before; [fuel] bounds the number
    of renders followed, and the result tells whether they came to rest. *)
Module Part003_react.
Section Hook.
Context `{JsHost} (cfg : Config).

Fixpoint renders (fuel : nat) (rendered : bool) : M bool :=
  leader ← gets (fun w => isLeader (hook w));
  if Bool.eqb rendered leader then mret true
  else match fuel with
       | O => mret false
       | S n =>
           Part003.effect_cleanup cfg rendered;;
           Part003.checkLeadership cfg;;
           renders n leader
       end.

(** A periodic check, or the check a storage event scheduled, and the
    renders after it. *)
Definition check_and_render (fuel : nat) : M bool :=
  rendered ← gets (fun w => isLeader (hook w));
  Part003.checkLeadership cfg;;
  renders fuel rendered.

End Hook.
End Part003_react.

(** ** src/src/utils.ts *)

Module Utils.

(** [isLocalStorageAvailable] (lines 27-36). *)
Definition isLocalStorageAvailable : M bool :=
  try_catch
    (let test := "__localStorage_test__" in
     localStorage_setItem test (Text test);;
     localStorage_removeItem test;;
     mret true)
    (fun _ => mret false).

(** [safeJsonParse] (lines 41-47). *)
Definition safeJsonParse (json : StorageValue) (fallback : JsValue)
  : M JsValue :=
  try_catch (JSON_parse json) (fun _ => mret fallback).

End Utils.

(** * Properties *)

(** ** Reading the effects off a run *)

Ltac run_m :=
  cbv [exec outcome mbind M_bind mret M_ret try_catch throw gets modify
       note_call localStorage_getItem localStorage_setItem
       localStorage_removeItem JSON_parse Date_now setTimeout call
       postMessage log setIsLeader setTabCount setIsChecking
       set_previousLeaderState
       with_items with_hook with_timers with_calls with_fired with_posted
       with_console with_clock with_faults with_hidden
       items faults clock hidden hook timers calls fired posted console
       getItem_throws setItem_throws removeItem_throws
       isLeader tabCount isChecking previousLeaderState fst snd
       new_calls new_fired
       Part001.getCurrentRecord Part001.setTabRecord Part001.removeTabRecord
       Part001.checkLeadership Part001.forceLeadership
       Part001.leaderStateEffect Part001.handleMessage
       Part001.handleStorageChange Part001.cleanup
       Part001.handleBeforeUnload Part001.handleVisibilityChange
       Part001.run_task Part001.fire_timeout Part001.handler Part001.commit
       Part001.dispatch Part001.mount Part001.unmount Part001.cleanup_closed
       Part002.console_error Part002.checkLeadership Part002.handleStorage
       Part002.effect_cleanup Part002.forceLeadership
       Part003.console_error Part003.checkLeadership Part003.handleStorage
       Part003.effect_cleanup Part003.unmount Part003.forceLeadership] in *.

(** The outcome a call has under the faults of the store. *)
Definition outcome_of (throws : bool) : Outcome :=
  if throws then Threw else Returned.

(** ** The decision rule *)

Inductive Decision : Type := Claim | Renew | Follower.

Definition leads (d : Decision) : bool :=
  match d with
  | Follower => false
  | _ => true
  end.

(** A value that has the shape of a [TabRecord]: an object whose [id] is a
    string and whose [timestamp] is a number. *)
Definition as_TabRecord (v : JsValue) : option TabRecord :=
  match get_prop v "id", get_prop v "timestamp" with
  | Some (JStr i), Some (JNum t) => Some {| id := i; timestamp := t |}
  | _, _ => None
  end.

(** The rule in the words of the specification (section 4.1): a record that
    is null or malformed is claimed; then expiry, then ownership. *)
Definition spec_decision (record : JsValue) (callerId : string)
  (now timeoutMs : Z) : Decision :=
  match as_TabRecord record with
  | None => Claim
  | Some r =>
      if timeoutMs <? now - timestamp r then Claim
      else if String.eqb (id r) callerId then Renew
      else Follower
  end.

(** The rule of [checkLeadership]: the record is tested for being falsy, not
    for its shape. *)
Definition code_decision `{JsHost} (record : JsValue) (callerId : string)
  (now timeoutMs : Z) : Decision :=
  if negb (truthy record) then Claim
  else if minus_gt now (ToNumber (get_prop record "timestamp")) timeoutMs
  then Claim
  else if strict_eq_str (get_prop record "id") callerId then Renew
  else Follower.

Lemma as_TabRecord_truthy v r : as_TabRecord v = Some r -> truthy v = true.
Proof. destruct v; try discriminate. reflexivity. Qed.

Lemma as_TabRecord_props v r :
  as_TabRecord v = Some r ->
  get_prop v "id" = Some (JStr (id r)) /\
  get_prop v "timestamp" = Some (JNum (timestamp r)).
Proof.
  unfold as_TabRecord. intros Hr.
  destruct (get_prop v "id") as [[ | | |i| | ]|]; try discriminate.
  destruct (get_prop v "timestamp") as [[ | |t| | | ]|]; try discriminate.
  inversion Hr; subst. simpl. split; reflexivity.
Qed.

(** On a record of the right shape the two rules agree. *)
Lemma code_decision_well_formed `{JsHost} v r callerId now timeoutMs :
  as_TabRecord v = Some r ->
  code_decision v callerId now timeoutMs = spec_decision v callerId now timeoutMs.
Proof.
  intros Hr. unfold code_decision, spec_decision. rewrite Hr.
  rewrite (as_TabRecord_truthy _ _ Hr).
  destruct (as_TabRecord_props _ _ Hr) as [-> ->]. simpl.
  reflexivity.
Qed.

Lemma as_TabRecord_record_value r : as_TabRecord (record_value r) = Some r.
Proof. destruct r. reflexivity. Qed.

Ltac js_simpl :=
  cbn [truthy negb orb andb leads outcome_of minus_gt ToNumber get_prop
       strict_eq_str nonempty_text] in *.

Ltac run_cfg := cbv [tabId storageKey timeout interval debug channel] in *.

(** ** Properties kept by every step of a computation *)

(** [always R m]: whatever the world, running [m] takes it to a world
    related to it by [R], whether [m] returns or throws. *)
Definition always {A : Type} (R : relation World) (m : M A) : Prop :=
  forall w, R w (exec m w).

Section Always.
Context (R : relation World) `{!PreOrder R}.

Lemma always_ret {A : Type} (a : A) : always R (mret a).
Proof. intros w. cbv [exec mret M_ret snd]. reflexivity. Qed.

Lemma always_bind {A B : Type} (m : M A) (f : A -> M B) :
  always R m -> (forall a, always R (f a)) -> always R (m ≫= f).
Proof.
  intros Hm Hf w. specialize (Hm w). unfold exec in *.
  cbv [mbind M_bind]. destruct (m w) as [[a|e] w1]; simpl in *.
  - etransitivity; [exact Hm | apply Hf].
  - exact Hm.
Qed.

Lemma always_try_catch {A : Type} (m : M A) (h : Error -> M A) :
  always R m -> (forall e, always R (h e)) -> always R (try_catch m h).
Proof.
  intros Hm Hh w. specialize (Hm w). unfold exec, try_catch in *.
  destruct (m w) as [[a|e] w1]; simpl in *.
  - exact Hm.
  - etransitivity; [exact Hm | apply Hh].
Qed.

Lemma always_throw {A : Type} (e : Error) : always R (throw (A := A) e).
Proof. intros w. cbv [exec throw snd]. reflexivity. Qed.

Lemma always_gets {A : Type} (f : World -> A) : always R (gets f).
Proof. intros w. cbv [exec gets snd]. reflexivity. Qed.

Lemma always_modify (f : World -> World) :
  (forall w, R w (f w)) -> always R (modify f).
Proof. intros Hf w. cbv [exec modify snd]. apply Hf. Qed.

End Always.

(** [returns m]: [m] never throws. *)
Definition returns {A : Type} (m : M A) : Prop :=
  forall w, exists a, outcome m w = Ok a.

Lemma returns_ret {A : Type} (a : A) : returns (mret a).
Proof. intros w. exists a. reflexivity. Qed.

Lemma returns_bind {A B : Type} (m : M A) (f : A -> M B) :
  returns m -> (forall a, returns (f a)) -> returns (m ≫= f).
Proof.
  intros Hm Hf w. destruct (Hm w) as [a Ha]. unfold outcome in *.
  cbv [mbind M_bind]. destruct (m w) as [[a'|e] w1]; simpl in *.
  - apply Hf.
  - discriminate.
Qed.

Lemma returns_try_catch {A : Type} (m : M A) (h : Error -> M A) :
  (forall e, returns (h e)) -> returns (try_catch m h).
Proof.
  intros Hh w. unfold outcome, try_catch.
  destruct (m w) as [[a|e] w1]; simpl.
  - eauto.
  - apply Hh.
Qed.

Lemma returns_gets {A : Type} (f : World -> A) : returns (gets f).
Proof. intros w. eexists. reflexivity. Qed.

Lemma returns_modify (f : World -> World) : returns (modify f).
Proof. intros w. eexists. reflexivity. Qed.

Lemma exec_bind {A B : Type} (m : M A) (f : A -> M B) (w : World) (a : A) :
  outcome m w = Ok a -> exec (m ≫= f) w = exec (f a) (exec m w).
Proof.
  unfold outcome, exec. cbv [mbind M_bind].
  destruct (m w) as [[a'|e] w1]; simpl; intros Ha; [|discriminate].
  inversion Ha; subst. reflexivity.
Qed.

Lemma outcome_bind {A B : Type} (m : M A) (f : A -> M B) (w : World) (a : A) :
  outcome m w = Ok a -> outcome (m ≫= f) w = outcome (f a) (exec m w).
Proof.
  unfold outcome, exec. cbv [mbind M_bind].
  destruct (m w) as [[a'|e] w1]; simpl; intros Ha; [|discriminate].
  inversion Ha; subst. reflexivity.
Qed.

(** ** Relations between the world before and after *)

(** Nothing but [OnTabDetected] is fired and the ref [previousLeaderState]
    is not assigned. *)
Definition quiet (w w' : World) : Prop :=
  previousLeaderState (hook w') = previousLeaderState (hook w) /\
  exists l, fired w' = fired w ++ l /\ Forall (eq OnTabDetected) l.

#[export] Instance quiet_preorder : PreOrder quiet.
Proof.
  split.
  - intros w. split; [reflexivity|]. exists []. rewrite app_nil_r. auto.
  - intros w1 w2 w3 [Hp1 (l1 & Hf1 & Hl1)] [Hp2 (l2 & Hf2 & Hl2)].
    split; [congruence|]. exists (l1 ++ l2).
    rewrite Hf2, Hf1, app_assoc. split; [reflexivity|].
    apply Forall_app; auto.
Qed.

(** The state of the hook and the callbacks fired stay as they are. *)
Definition hook_kept (w w' : World) : Prop :=
  hook w' = hook w /\ fired w' = fired w.

#[export] Instance hook_kept_preorder : PreOrder hook_kept.
Proof.
  split.
  - intros w. split; reflexivity.
  - intros w1 w2 w3 [Hh1 Hf1] [Hh2 Hf2]. split; congruence.
Qed.

Ltac unfold_browser :=
  unfold localStorage_getItem, localStorage_setItem, localStorage_removeItem,
    JSON_parse, Date_now, setTimeout, call, postMessage, log, note_call,
    setIsLeader, setTabCount, setIsChecking, set_previousLeaderState.

Ltac unfold_part001 :=
  unfold Part001.dispatch, Part001.mount, Part001.unmount, Part001.commit,
    Part001.handler, Part001.fire_timeout, Part001.run_task,
    Part001.handleVisibilityChange, Part001.handleBeforeUnload,
    Part001.cleanup, Part001.cleanup_closed, Part001.handleStorageChange,
    Part001.handleMessage,
    Part001.forceLeadership, Part001.checkLeadership,
    Part001.removeTabRecord, Part001.setTabRecord, Part001.getCurrentRecord.

Ltac along_text on_modify :=
  repeat first
    [ progress lazy beta zeta
    | apply always_ret; solve [typeclasses eauto]
    | apply always_gets; solve [typeclasses eauto]
    | apply always_throw; solve [typeclasses eauto]
    | apply always_bind; [typeclasses eauto | | intros ?]
    | apply always_try_catch; [typeclasses eauto | | intros ?]
    | apply always_modify; solve [on_modify]
    | match goal with
      | |- always _ (if ?b then _ else _) => destruct b
      | |- always _ (match ?x with _ => _ end) => destruct x
      end ].

Ltac returns_text :=
  repeat first
    [ progress lazy beta zeta
    | apply returns_ret
    | apply returns_gets
    | apply returns_modify
    | apply returns_bind; [ | intros ?]
    | apply returns_try_catch; intros ?
    | match goal with
      | |- returns (if ?b then _ else _) => destruct b
      | |- returns (match ?x with _ => _ end) => destruct x
      end ].

Ltac quiet_change :=
  intros [it fa cl hi [l n c p] ti ca fi po co]; split; cbn;
  [ reflexivity
  | first [ exists []; rewrite app_nil_r; split; [reflexivity | constructor]
          | eexists; split; [reflexivity | repeat constructor] ] ].

Ltac hook_kept_change :=
  intros [it fa cl hi [l n c p] ti ca fi po co]; split; reflexivity.

Section Part001_frames.
Context `{JsHost} (cfg : Config).

Lemma handler_returns (a : Part001.Action) : returns (Part001.handler cfg a).
Proof.
  destruct a; unfold_part001; unfold_browser; returns_text.
Qed.

Lemma cleanup_returns : returns (Part001.cleanup cfg).
Proof. unfold_part001; unfold_browser; returns_text. Qed.

Lemma handler_quiet (a : Part001.Action) :
  always quiet (Part001.handler cfg a).
Proof.
  destruct a; unfold_part001; unfold_browser; along_text quiet_change.
Qed.

Lemma cleanup_hook_kept : always hook_kept (Part001.cleanup cfg).
Proof. unfold_part001; unfold_browser; along_text hook_kept_change. Qed.

End Part001_frames.

(** ** What one hook does around a run of the environment *)

(** What the rest of the world does between two handlers of the hook: time
    passes, other tabs write or delete entries of [localStorage], the store
    starts or stops failing, the page is hidden or shown. *)
Inductive Step : Type :=
| Act (a : Part001.Action)
| ClockReads (now : Z)
| OtherTab (key : string) (value : option StorageValue)
| StorageFaults (f : Faults)
| Visibility (is_hidden : bool).

Definition other_tab (key : string) (value : option StorageValue)
  (it : gmap string StorageValue) : gmap string StorageValue :=
  match value with
  | Some text => <[key := text]> it
  | None => delete key it
  end.

(** The world before the first render. *)
Definition initial (it : gmap string StorageValue) (f : Faults) (now : Z)
  (is_hidden : bool) : World :=
  {| items := it; faults := f; clock := now; hidden := is_hidden;
     hook := {| isLeader := false; tabCount := 1; isChecking := true;
                previousLeaderState := false |};
     timers := []; calls := []; fired := []; posted := []; console := [] |}.

Section Part001_runs.
Context `{JsHost} (cfg : Config).

Definition step (s : Step) (w : World) : World :=
  match s with
  | Act a => exec (Part001.dispatch cfg a) w
  | ClockReads now => with_clock (fun _ => now) w
  | OtherTab key value => with_items (other_tab key value) w
  | StorageFaults f => with_faults (fun _ => f) w
  | Visibility is_hidden => with_hidden (fun _ => is_hidden) w
  end.

Definition run (steps : list Step) (w : World) : World :=
  fold_left (fun w s => step s w) steps w.

Definition mounted (it : gmap string StorageValue) (f : Faults) (now : Z)
  (is_hidden : bool) : World :=
  exec (Part001.mount cfg) (initial it f now is_hidden).

(** The ref [previousLeaderState] holds the [isLeader] of the last render. *)
Definition in_sync (w : World) : Prop :=
  previousLeaderState (hook w) = isLeader (hook w).

Definition transition (c : Callback) : bool :=
  match c with
  | OnTabDetected => false
  | _ => true
  end.

(** The callbacks an edge of [isLeader] calls for. *)
Definition edge (before after : bool) : list Callback :=
  match before, after with
  | false, true => [OnBecomeLeader]
  | true, false => [OnLoseLeadership]
  | _, _ => []
  end.

Definition synced (h : Hook) : Hook :=
  {| isLeader := isLeader h; tabCount := tabCount h;
     isChecking := isChecking h; previousLeaderState := isLeader h |}.

Lemma leaderStateEffect_run (w : World) :
  let w' := exec (Part001.leaderStateEffect cfg) w in
  hook w' = synced (hook w) /\
  fired w' = fired w ++ edge (previousLeaderState (hook w)) (isLeader (hook w)).
Proof.
  destruct w as [it fa cl hi [l n c p] ti ca fi po co].
  run_m. destruct (debug cfg), l, p; cbn; rewrite ?app_nil_r; auto.
Qed.

Lemma filter_detected (l : list Callback) :
  Forall (eq OnTabDetected) l -> List.filter transition l = [].
Proof.
  induction 1 as [|c l Hc _ IH]; [reflexivity|]. subst c. simpl. exact IH.
Qed.

Lemma filter_edge (b b' : bool) : List.filter transition (edge b b') = edge b b'.
Proof. destruct b, b'; reflexivity. Qed.

Lemma new_fired_app (w w' : World) (l : list Callback) :
  fired w' = fired w ++ l -> new_fired w w' = l.
Proof. unfold new_fired. intros ->. apply drop_app_length. Qed.

(** The render after a handler: what is fired, and the ref is up to date. *)
Lemma commit_run (rendered : bool) (w : World) :
  previousLeaderState (hook w) = rendered ->
  let w' := exec (Part001.commit cfg rendered) w in
  hook w' = synced (hook w) /\
  fired w' = fired w ++ edge rendered (isLeader (hook w)).
Proof.
  intros Hprev. unfold Part001.commit.
  rewrite (exec_bind _ _ w (isLeader (hook w))) by reflexivity.
  change (exec (gets (fun w0 => isLeader (hook w0))) w) with w.
  destruct (Bool.eqb rendered (isLeader (hook w))) eqn:Heq; cbn [negb].
  - apply Bool.eqb_prop in Heq. cbv [exec mret M_ret snd].
    destruct w as [it fa cl hi [l n c p] ti ca fi po co]; cbn in *.
    subst. unfold synced. cbn. split; [reflexivity|].
    destruct l; cbn; rewrite app_nil_r; reflexivity.
  - destruct (cleanup_returns cfg w) as [[] Hret].
    rewrite (exec_bind _ _ w tt Hret).
    destruct (cleanup_hook_kept cfg w) as [Hhook Hfired].
    destruct (leaderStateEffect_run (exec (Part001.cleanup cfg) w))
      as (Hk & Hf).
    rewrite Hhook in *. rewrite Hfired, Hprev in Hf. split; assumption.
Qed.

Lemma dispatch_run (a : Part001.Action) (w : World) :
  in_sync w ->
  let w' := exec (Part001.dispatch cfg a) w in
  in_sync w' /\
  exists l, fired w' = fired w ++ l /\
    List.filter transition l = edge (isLeader (hook w)) (isLeader (hook w')).
Proof.
  intros Hsync. unfold Part001.dispatch.
  rewrite (exec_bind _ _ w (isLeader (hook w))) by reflexivity.
  change (exec (gets (fun w0 => isLeader (hook w0))) w) with w.
  destruct (handler_returns cfg a w) as [[] Hret].
  rewrite (exec_bind _ _ w tt Hret).
  destruct (handler_quiet cfg a w) as [Hprev (l & Hfired & Hl)].
  destruct (commit_run (isLeader (hook w)) (exec (Part001.handler cfg a) w))
    as [Hk Hf]; [congruence|].
  cbv zeta. split.
  - unfold in_sync. rewrite Hk. reflexivity.
  - rewrite Hfired, <- app_assoc in Hf. eexists. split; [exact Hf|].
    rewrite List.filter_app, (filter_detected _ Hl), filter_edge, Hk.
    reflexivity.
Qed.

Lemma mount_run (it : gmap string StorageValue) (f : Faults) (now : Z)
  (is_hidden : bool) :
  let w' := mounted it f now is_hidden in
  in_sync w' /\
  List.filter transition (fired w') = edge false (isLeader (hook w')).
Proof.
  unfold mounted, Part001.mount. set (w := initial it f now is_hidden).
  rewrite (exec_bind _ _ w false) by reflexivity.
  change (exec (gets (fun w0 => isLeader (hook w0))) w) with w.
  rewrite (exec_bind _ _ w tt) by (subst w; run_m; destruct (debug cfg); reflexivity).
  destruct (leaderStateEffect_run w) as [Hk0 Hf0].
  set (w1 := exec (Part001.leaderStateEffect cfg) w) in *.
  destruct (handler_returns cfg Part001.Check w1) as [[] Hret].
  cbn [Part001.handler] in Hret.
  rewrite (exec_bind _ _ w1 tt Hret).
  destruct (handler_quiet cfg Part001.Check w1) as [Hprev (l & Hfired & Hl)].
  cbn [Part001.handler] in Hprev, Hfired.
  destruct (commit_run false (exec (Part001.checkLeadership cfg) w1))
    as [Hk Hf]; [rewrite Hprev, Hk0; reflexivity|].
  cbv zeta. split.
  - unfold in_sync. rewrite Hk. reflexivity.
  - rewrite Hf, Hfired, Hf0, Hk. subst w.
    change (fired (initial it f now is_hidden)
            ++ edge (previousLeaderState (hook (initial it f now is_hidden)))
                 (isLeader (hook (initial it f now is_hidden))))
      with (@nil Callback).
    cbn [app synced isLeader].
    rewrite List.filter_app, (filter_detected _ Hl), filter_edge.
    reflexivity.
Qed.

Lemma step_run (s : Step) (w : World) :
  in_sync w ->
  in_sync (step s w) /\
  exists l, fired (step s w) = fired w ++ l /\
    List.filter transition l = edge (isLeader (hook w)) (isLeader (hook (step s w))).
Proof.
  destruct s; cbn [step]; [apply dispatch_run | | | | ];
    destruct w as [it fa cl hi [l n c p] ti ca fi po co]; intros Hs;
    (split; [exact Hs|]); exists []; cbn; rewrite app_nil_r;
    destruct l; auto.
Qed.

Lemma step_in_sync (s : Step) (w : World) : in_sync w -> in_sync (step s w).
Proof. intros Hs. apply step_run, Hs. Qed.

Lemma run_in_sync (steps : list Step) (w : World) :
  in_sync w -> in_sync (run steps w).
Proof.
  revert w. induction steps as [|s steps IH]; intros w Hs; [exact Hs|].
  apply IH, step_in_sync, Hs.
Qed.

Lemma mounted_in_sync it f now is_hidden : in_sync (mounted it f now is_hidden).
Proof. apply mount_run. Qed.

(** The values of [isLeader] after each step of a run. *)
Fixpoint leader_history (steps : list Step) (w : World) : list bool :=
  match steps with
  | [] => []
  | s :: rest => isLeader (hook (step s w)) :: leader_history rest (step s w)
  end.

Fixpoint edges (before : bool) (history : list bool) : list Callback :=
  match history with
  | [] => []
  | after :: rest => edge before after ++ edges after rest
  end.

Lemma run_callbacks (steps : list Step) (w : World) :
  in_sync w ->
  exists l, fired (run steps w) = fired w ++ l /\
    List.filter transition l
    = edges (isLeader (hook w)) (leader_history steps w).
Proof.
  revert w. induction steps as [|s steps IH]; intros w Hs.
  - exists []. cbn. rewrite app_nil_r. auto.
  - destruct (step_run s w Hs) as (Hs' & l1 & Hf1 & He1).
    destruct (IH _ Hs') as (l2 & Hf2 & He2).
    exists (l1 ++ l2). cbn [run fold_left leader_history edges].
    change (fold_left (fun w0 s0 => step s0 w0) steps (step s w))
      with (run steps (step s w)).
    rewrite Hf2, Hf1, <- app_assoc, List.filter_app, He1, He2. auto.
Qed.

End Part001_runs.

(** C4. On a mounted hook, whatever has happened before, a handler followed
    by its render calls [onBecomeLeader] exactly once when [isLeader] went
    from false to true, [onLoseLeadership] exactly once when it went from
    true to false, and neither of them when [isLeader] is what it was (a
    renewal among them); the same holds for the first render. *)
Theorem callbacks_fire_once_per_edge `{JsHost} (cfg : Config)
  (it : gmap string StorageValue) (f : Faults) (now : Z) (is_hidden : bool)
  (steps : list Step) (a : Part001.Action) :
  let w0 := mounted cfg it f now is_hidden in
  let w := run cfg steps w0 in
  let w' := exec (Part001.dispatch cfg a) w in
  List.filter transition (fired w0) = edge false (isLeader (hook w0)) /\
  List.filter transition (new_fired w w')
  = edge (isLeader (hook w)) (isLeader (hook w')).
Proof.
  cbv zeta. split; [apply mount_run|].
  destruct (dispatch_run cfg a (run cfg steps (mounted cfg it f now is_hidden)))
    as (_ & l & Hf & He).
  - apply run_in_sync, mounted_in_sync.
  - rewrite (new_fired_app _ _ _ Hf). exact He.
Qed.


(** ** What each function of part_001 does *)

Section Part001_facts.
Context `{JsHost} (cfg : Config).

(** The text the hook stores: [JSON.stringify({id: tabId, timestamp})]. *)
Definition own_record (now : Z) : StorageValue :=
  JSON_stringify {| id := tabId cfg; timestamp := now |}.

(** What [getCurrentRecord] returns, read off the world. *)
Definition read_record (w : World) : JsValue :=
  if getItem_throws (faults w) then JNull
  else match items w !! storageKey cfg with
       | Some (JsonText v) => v
       | _ => JNull
       end.

Lemma getCurrentRecord_reads (w : World) :
  outcome (Part001.getCurrentRecord cfg) w = Ok (read_record w).
Proof.
  destruct w as [it [g s r] cl hi hk ti ca fi po co].
  unfold read_record. run_m.
  destruct g, (debug cfg); try reflexivity.
  all: destruct (it !! storageKey cfg) as [[[|c0 s0]|v]|]; reflexivity.
Qed.

Lemma checkLeadership_run (w : World) :
  let d := code_decision (read_record w) (tabId cfg) (clock w) (timeout cfg) in
  let w' := exec (Part001.checkLeadership cfg) w in
  outcome (Part001.checkLeadership cfg) w = Ok tt /\
  hook w' = {| isLeader := leads d;
               tabCount := if leads d then 1 else 2;
               isChecking := false;
               previousLeaderState := previousLeaderState (hook w) |} /\
  calls w' = calls w ++
    (GetItem (storageKey cfg), outcome_of (getItem_throws (faults w)))
    :: (if leads d
        then [(SetItem (storageKey cfg) (own_record (clock w)),
               outcome_of (setItem_throws (faults w)))]
        else []) /\
  items w' =
    (if leads d && negb (setItem_throws (faults w))
     then <[storageKey cfg := own_record (clock w)]> (items w)
     else items w) /\
  fired w' = fired w ++ (if leads d then [] else [OnTabDetected]) /\
  faults w' = faults w /\ clock w' = clock w /\ hidden w' = hidden w /\
  timers w' = timers w /\ posted w' = posted w.
Proof.
  destruct w as [it [g s r] cl hi [l n c p] ti ca fi po co].
  unfold code_decision, read_record, own_record.
  destruct cfg as [tab key tmo itv dbg chan].
  destruct dbg, g, s; run_m; run_cfg; js_simpl.
  all: try (destruct (it !! key) as [[[|c0 s0]|v]|]; run_m; js_simpl).
  all: try (destruct (truthy v),
        (minus_gt cl (ToNumber (get_prop v "timestamp")) tmo),
        (strict_eq_str (get_prop v "id") tab); run_m; js_simpl).
  all: rewrite <- ?app_assoc, ?app_nil_r; cbn [app].
  all: repeat split; reflexivity.
Qed.

Lemma forceLeadership_run (w : World) :
  let w' := exec (Part001.forceLeadership cfg) w in
  outcome (Part001.forceLeadership cfg) w = Ok tt /\
  hook w' = {| isLeader := true; tabCount := 1;
               isChecking := isChecking (hook w);
               previousLeaderState := previousLeaderState (hook w) |} /\
  calls w' = calls w ++
    [(SetItem (storageKey cfg) (own_record (clock w)),
      outcome_of (setItem_throws (faults w)))] /\
  items w' =
    (if setItem_throws (faults w) then items w
     else <[storageKey cfg := own_record (clock w)]> (items w)) /\
  fired w' = fired w /\ timers w' = timers w /\ posted w' = posted w.
Proof.
  destruct w as [it [g s r] cl hi [l n c p] ti ca fi po co].
  unfold own_record. destruct cfg as [tab key tmo itv dbg chan].
  destruct dbg, s; run_m; run_cfg; js_simpl; repeat split; reflexivity.
Qed.

Lemma handleVisibilityChange_run (w : World) :
  let w' := exec (Part001.handleVisibilityChange cfg) w in
  let renews := hidden w && isLeader (hook w) in
  outcome (Part001.handleVisibilityChange cfg) w = Ok tt /\
  hook w' = hook w /\
  calls w' = calls w ++
    (if renews
     then [(SetItem (storageKey cfg) (own_record (clock w)),
            outcome_of (setItem_throws (faults w)))]
     else []) /\
  items w' =
    (if renews && negb (setItem_throws (faults w))
     then <[storageKey cfg := own_record (clock w)]> (items w)
     else items w) /\
  fired w' = fired w /\ timers w' = timers w /\ posted w' = posted w.
Proof.
  destruct w as [it [g s r] cl hi [l n c p] ti ca fi po co].
  unfold own_record. destruct cfg as [tab key tmo itv dbg chan].
  destruct dbg, hi, l, s; run_m; run_cfg; js_simpl;
    rewrite ?app_nil_r; repeat split; reflexivity.
Qed.

(** [record && record.id === currentTabId] *)
Definition owned_by (tab : string) (record : JsValue) : bool :=
  truthy record && strict_eq_str (get_prop record "id") tab.

Lemma cleanup_run (w : World) :
  let w' := exec (Part001.cleanup cfg) w in
  let own := owned_by (tabId cfg) (read_record w) in
  outcome (Part001.cleanup cfg) w = Ok tt /\
  hook w' = hook w /\
  calls w' = calls w ++
    (GetItem (storageKey cfg), outcome_of (getItem_throws (faults w)))
    :: (if own
        then [(RemoveItem (storageKey cfg),
               outcome_of (removeItem_throws (faults w)))]
        else []) /\
  items w' =
    (if own && negb (removeItem_throws (faults w))
     then delete (storageKey cfg) (items w)
     else items w) /\
  posted w' = posted w ++
    (if channel cfg then [TabClosing (tabId cfg)] else []) /\
  fired w' = fired w /\ timers w' = timers w.
Proof.
  destruct w as [it [g s r] cl hi [l n c p] ti ca fi po co].
  unfold owned_by, read_record. destruct cfg as [tab key tmo itv dbg chan].
  destruct dbg, chan, g, r; run_m; run_cfg; js_simpl.
  all: try (destruct (it !! key) as [[[|c0 s0]|v]|]; run_m; js_simpl).
  all: try (destruct (truthy v), (strict_eq_str (get_prop v "id") tab);
            run_m; js_simpl).
  all: rewrite <- ?app_assoc, ?app_nil_r; cbn [app].
  all: repeat split; reflexivity.
Qed.

Lemma read_record_ext (w1 w2 : World) :
  items w1 = items w2 -> faults w1 = faults w2 ->
  read_record w1 = read_record w2.
Proof. unfold read_record. intros -> ->. reflexivity. Qed.

(** A storage event for the key of the hook runs the check inside the
    handler and leaves the timers alone. *)
Lemma handleStorageChange_run (w : World) :
  let w' := exec (Part001.handleStorageChange cfg (Some (storageKey cfg))) w in
  let w1 := exec (Part001.checkLeadership cfg) w in
  outcome (Part001.handleStorageChange cfg (Some (storageKey cfg))) w = Ok tt /\
  hook w' = hook w1 /\ calls w' = calls w1 /\ items w' = items w1 /\
  fired w' = fired w1 /\ timers w' = timers w.
Proof.
  unfold Part001.handleStorageChange. rewrite String.eqb_refl.
  set (w2 := exec (log (debug cfg) "Storage change detected for key:") w).
  assert (Hlog : outcome (log (debug cfg) "Storage change detected for key:") w
                 = Ok tt) by (destruct (debug cfg); reflexivity).
  assert (Hw2 : items w2 = items w /\ faults w2 = faults w /\
                clock w2 = clock w /\ hook w2 = hook w /\
                calls w2 = calls w /\ fired w2 = fired w /\
                timers w2 = timers w).
  { subst w2. destruct w. destruct (debug cfg); cbn; repeat split. }
  destruct Hw2 as (Hi & Hfa & Hc & Hh & Hca & Hfi & Hti).
  rewrite (exec_bind _ _ w tt Hlog), (outcome_bind _ _ w tt Hlog). fold w2.
  pose proof (checkLeadership_run w2) as R2.
  pose proof (checkLeadership_run w) as R1.
  cbv zeta in *.
  rewrite (read_record_ext w2 w Hi Hfa), Hi, Hfa, Hc, Hh, Hca, Hfi, Hti in R2.
  destruct R2 as (Ho2 & Hk2 & Hc2 & Hi2 & Hf2 & _ & _ & _ & Ht2 & _).
  destruct R1 as (_ & Hk1 & Hc1 & Hi1 & Hf1 & _ & _ & _ & Ht1 & _).
  rewrite Ho2, Hk2, Hk1, Hc2, Hc1, Hi2, Hi1, Hf2, Hf1, Ht2.
  repeat split; reflexivity.
Qed.

Lemma handleMessage_run (w : World) :
  let w' := exec (Part001.handleMessage cfg "leadership-change") w in
  hook w' = hook w /\ calls w' = calls w /\ items w' = items w /\
  fired w' = fired w /\ timers w' = timers w ++ [(CheckLeadership, 100)].
Proof.
  destruct w. destruct cfg as [tab key tmo itv dbg chan].
  destruct dbg; run_m; run_cfg; repeat split; reflexivity.
Qed.

End Part001_facts.

Section Part002_facts.
Context `{JsHost} (cfg : Config).

Lemma handleStorage_run (w : World) :
  let w' := exec (Part002.handleStorage cfg (Some (storageKey cfg))) w in
  hook w' = hook w /\ calls w' = calls w /\ items w' = items w /\
  fired w' = fired w /\ timers w' = timers w ++ [(CheckLeadership, 100)].
Proof.
  unfold Part002.handleStorage. rewrite String.eqb_refl.
  destruct w. repeat split; reflexivity.
Qed.


End Part002_facts.

(** ** Every write names the tab *)

Section Part001_writes.
Context `{JsHost} (cfg : Config).

(** A call of [setItem] that stores, under the key of the hook, a record
    whose [id] is the id of this tab. Other calls write no record. *)
Definition own_call (c : StorageCall * Outcome) : Prop :=
  match fst c with
  | SetItem k v => k = storageKey cfg /\ exists t, v = own_record cfg t
  | _ => True
  end.

(** Between [w] and [w'] the hook made only such calls, and what the store
    holds that it did not hold before is such a record. *)
Definition own_writes (w w' : World) : Prop :=
  (exists l, calls w' = calls w ++ l /\ Forall own_call l) /\
  (forall k v, items w' !! k = Some v ->
     items w !! k = Some v \/
     (k = storageKey cfg /\ exists t, v = own_record cfg t)).

#[export] Instance own_writes_preorder : PreOrder own_writes.
Proof.
  split.
  - intros w. split; [exists []; rewrite app_nil_r; auto | auto].
  - intros w1 w2 w3 [(l1 & Hc1 & Hl1) Hi1] [(l2 & Hc2 & Hl2) Hi2]. split.
    + exists (l1 ++ l2). rewrite Hc2, Hc1, app_assoc. split; [reflexivity|].
      apply Forall_app; auto.
    + intros k v Hv. destruct (Hi2 k v Hv) as [Hv2|Hown]; [|auto].
      apply Hi1, Hv2.
Qed.

Lemma own_writes_insert (now : Z) (w : World) :
  own_writes w
    (with_items (insert (storageKey cfg)
       (JSON_stringify {| id := tabId cfg; timestamp := now |})) w).
Proof.
  destruct w as [it fa cl hi hk ti ca fi po co]. split; cbn.
  - exists []. rewrite app_nil_r. auto.
  - intros k v. destruct (decide (storageKey cfg = k)) as [<-|Hne].
    + rewrite lookup_insert_eq. intros [= <-]. right. split; [reflexivity|].
      exists now. reflexivity.
    + rewrite lookup_insert_ne by exact Hne. auto.
Qed.

Lemma own_writes_delete (k : string) (w : World) :
  own_writes w (with_items (delete k) w).
Proof.
  destruct w as [it fa cl hi hk ti ca fi po co]. split; cbn.
  - exists []. rewrite app_nil_r. auto.
  - intros k' v. destruct (decide (k = k')) as [<-|Hne].
    + rewrite lookup_delete_eq. discriminate.
    + rewrite lookup_delete_ne by exact Hne. auto.
Qed.

Lemma own_writes_call (c : StorageCall) (o : Outcome) (w : World) :
  own_call (c, o) -> own_writes w (with_calls (fun l => l ++ [(c, o)]) w).
Proof.
  intros Hc. destruct w as [it fa cl hi hk ti ca fi po co]. split; cbn.
  - exists [(c, o)]. split; [reflexivity|]. constructor; [exact Hc|constructor].
  - auto.
Qed.

Ltac own_change :=
  let w := fresh "w" in
  intros w;
  first
    [ apply own_writes_insert
    | apply own_writes_delete
    | apply own_writes_call; cbv [own_call fst];
      first [exact I | split; [reflexivity | eexists; reflexivity]]
    | destruct w; split; cbn;
      [ exists []; rewrite app_nil_r; auto | auto ] ].

Lemma dispatch_own_writes (a : Part001.Action) :
  always own_writes (Part001.dispatch cfg a).
Proof.
  destruct a; unfold_part001; unfold Part001.leaderStateEffect;
    unfold_browser; along_text own_change.
Qed.

Lemma mount_own_writes : always own_writes (Part001.mount cfg).
Proof.
  unfold_part001; unfold Part001.leaderStateEffect; unfold_browser;
    along_text own_change.
Qed.

End Part001_writes.

Section Part001_write_runs.
Context `{JsHost} (cfg : Config).

Definition own_text (k : string) (v : StorageValue) : Prop :=
  k = storageKey cfg /\ exists t, v = own_record cfg t.

Lemma step_own_writes (s : Step) (w : World)
  (P : string -> StorageValue -> Prop) :
  Forall (own_call cfg) (calls w) ->
  (forall k v, items w !! k = Some v -> own_text k v \/ P k v) ->
  Forall (own_call cfg) (calls (step cfg s w)) /\
  (forall k v, items (step cfg s w) !! k = Some v ->
     own_text k v \/ P k v \/ s = OtherTab k (Some v)).
Proof.
  intros Hcalls Hitems. destruct s as [a|now|k0 val|fa|hid]; cbn [step].
  - destruct (dispatch_own_writes cfg a w) as [(l & Hc & Hl) Hi]. split.
    + rewrite Hc. apply Forall_app; auto.
    + intros k v Hv. destruct (Hi k v Hv) as [Hold|Hown]; [|left; exact Hown].
      destruct (Hitems k v Hold); auto.
  - destruct w; cbn in *. split; [exact Hcalls|].
    intros k v Hv. destruct (Hitems k v Hv); auto.
  - destruct w as [it fa cl hi hk ti ca fi po co]; cbn in *.
    split; [exact Hcalls|]. intros k v.
    destruct val as [text|]; cbn [other_tab].
    + destruct (decide (k0 = k)) as [<-|Hne].
      * rewrite lookup_insert_eq. intros [= <-]. auto.
      * rewrite lookup_insert_ne by exact Hne. intros Hv.
        destruct (Hitems k v Hv); auto.
    + destruct (decide (k0 = k)) as [<-|Hne].
      * rewrite lookup_delete_eq. discriminate.
      * rewrite lookup_delete_ne by exact Hne. intros Hv.
        destruct (Hitems k v Hv); auto.
  - destruct w; cbn in *. split; [exact Hcalls|].
    intros k v Hv. destruct (Hitems k v Hv); auto.
  - destruct w; cbn in *. split; [exact Hcalls|].
    intros k v Hv. destruct (Hitems k v Hv); auto.
Qed.

Lemma run_own_writes (steps : list Step) (w : World)
  (P : string -> StorageValue -> Prop) :
  Forall (own_call cfg) (calls w) ->
  (forall k v, items w !! k = Some v -> own_text k v \/ P k v) ->
  Forall (own_call cfg) (calls (run cfg steps w)) /\
  (forall k v, items (run cfg steps w) !! k = Some v ->
     own_text k v \/ P k v \/ In (OtherTab k (Some v)) steps).
Proof.
  revert w P. induction steps as [|s steps IH]; intros w P Hcalls Hitems.
  - split; [exact Hcalls|]. intros k v Hv. destruct (Hitems k v Hv); auto.
  - destruct (step_own_writes s w P Hcalls Hitems) as [Hc1 Hi1].
    destruct (IH (step cfg s w)
                (fun k v => P k v \/ s = OtherTab k (Some v)) Hc1 Hi1)
      as [Hc2 Hi2].
    split; [exact Hc2|]. intros k v Hv.
    destruct (Hi2 k v Hv) as [Hown|[[HP|Hs]|Hin]]; cbn [In]; auto.
Qed.

End Part001_write_runs.

(** C10. Whatever the hook and the rest of the world have done since the
    first render, every [setItem] the hook has called stored, under its own
    key, a record whose [id] is its [tabId]; so a text in the store is such
    a record, or it was there before the hook was mounted, or another tab
    put it there. *)
Theorem every_write_names_own_tab `{JsHost} (cfg : Config)
  (it : gmap string StorageValue) (f : Faults) (now : Z) (is_hidden : bool)
  (steps : list Step) :
  let w := run cfg steps (mounted cfg it f now is_hidden) in
  Forall (own_call cfg) (calls w) /\
  (forall k v, items w !! k = Some v ->
     own_text cfg k v \/ it !! k = Some v \/ In (OtherTab k (Some v)) steps).
Proof.
  cbv zeta. unfold mounted.
  destruct (mount_own_writes cfg (initial it f now is_hidden))
    as [(l & Hc & Hl) Hi].
  apply run_own_writes.
  - rewrite Hc. cbn. exact Hl.
  - intros k v Hv. destruct (Hi k v Hv) as [Hold|Hown]; [right|left]; auto.
Qed.

(** ** A concrete page *)

(** A host for the examples; none of them converts a string or an object to
    a number. *)
Definition plain_host : JsHost :=
  {| StringToNumber := fun _ => NaN; ObjectToNumber := fun _ => NaN |}.

(** Tab A with the timeout of the scenario of the specification. *)
Definition tab_A : Config :=
  {| tabId := "tab-A"; storageKey := "single-tab-my-app"; timeout := 5000;
     interval := 10000; debug := false; channel := true |}.

Definition healthy : Faults :=
  {| getItem_throws := false; setItem_throws := false;
     removeItem_throws := false |}.

Definition follower_hook : Hook :=
  {| isLeader := false; tabCount := 2; isChecking := false;
     previousLeaderState := false |}.

Definition leader_hook : Hook :=
  {| isLeader := true; tabCount := 1; isChecking := false;
     previousLeaderState := true |}.

(** A page at time [now] whose store holds [stored] under the key. *)
Definition page (stored : option StorageValue) (f : Faults) (now : Z)
  (h : Hook) : World :=
  {| items := other_tab "single-tab-my-app" stored ∅; faults := f;
     clock := now; hidden := false; hook := h; timers := []; calls := [];
     fired := []; posted := []; console := [] |}.

(** The record of another tab B, written at time 0. *)
Definition record_B : StorageValue :=
  JSON_stringify {| id := "tab-B"; timestamp := 0 |}.

(** ** The decision rule of [checkLeadership] *)




Lemma new_calls_app (w w' : World) (l : list (StorageCall * Outcome)) :
  calls w' = calls w ++ l -> new_calls w w' = l.
Proof. unfold new_calls. intros ->. apply drop_app_length. Qed.

(** C1, as stated, fails: a stored object with an [id] and no [timestamp] is
    malformed, so the rule of the specification claims; [checkLeadership]
    stays follower and writes nothing. *)
Lemma malformed_record_is_not_claimed :
  let v := JObj [("id", JStr "tab-B")] in
  let w := page (Some (JsonText v)) healthy 3000 follower_hook in
  let w' := exec (@Part001.checkLeadership plain_host tab_A) w in
  as_TabRecord v = None /\
  outcome (Part001.getCurrentRecord tab_A) w = Ok v /\
  spec_decision v "tab-A" 3000 5000 = Claim /\
  isLeader (hook w') = false /\
  new_calls w w' = [(GetItem "single-tab-my-app", Returned)] /\
  items w' !! "single-tab-my-app" = Some (JsonText v).
Proof. vm_compute. repeat split; reflexivity. Qed.

(** ** Where the model computes what JavaScript computes *)

(** The integers JavaScript adds and subtracts without rounding: those up to
    [Number.MAX_SAFE_INTEGER] in magnitude. *)
Definition safe_integer (z : Z) : bool :=
  (- 9007199254740991 <=? z) && (z <=? 9007199254740991).

(** [now - x > limit] is computed by [minus_gt] as JavaScript computes it:
    [x] is missing, [null], a boolean or a safe integer, so that its
    conversion cannot throw and is not left to the host, and [now], [limit]
    and the difference are safe integers. *)
Definition exact_minus_gt (now : Z) (x : option JsValue) (limit : Z) : bool :=
  safe_integer now && safe_integer limit &&
  match x with
  | None | Some JNull | Some (JBool _) => true
  | Some (JNum n) => safe_integer n && safe_integer (now - n)
  | Some (JStr _) | Some (JArr _) | Some (JObj _) => false
  end.

(** The check of this world computes what JavaScript computes: the record
    read is falsy, and no difference is taken, or the difference is exact. *)
Definition exact_check (cfg : Config) (w : World) : bool :=
  let record := read_record cfg w in
  negb (truthy record)
  || exact_minus_gt (clock w) (get_prop record "timestamp") (timeout cfg).

(** C1, amended. Where the check computes what JavaScript computes
    ([exact_check]: the record read is falsy, or its [timestamp] is
    missing, [null], a boolean or an integer, all integers safe),
    [checkLeadership] returns, and acts by the rule [code_decision] on the
    record [getCurrentRecord] returns: a falsy record (null for an absent,
    empty, unparsable or unreadable text) is claimed; else an expired one
    is claimed, where [null] and [false] count as 0, [true] as 1, and a
    missing [timestamp] never expires; else an own one is renewed; else the
    tab is a follower. Claim and renew call [setItem] with
    [{id: tabId, timestamp: now}] and set [isLeader]; the follower branch
    writes nothing, clears [isLeader] and calls [onTabDetected]. On a record
    of the shape [{id, timestamp}] this is the rule of the specification. *)
Theorem checkLeadership_decision_rule `{JsHost} (cfg : Config) (w : World) :
  exact_check cfg w = true ->
  exists record,
    outcome (Part001.getCurrentRecord cfg) w = Ok record /\
    let d := code_decision record (tabId cfg) (clock w) (timeout cfg) in
    let w' := exec (Part001.checkLeadership cfg) w in
    match as_TabRecord record with
    | Some _ => d = spec_decision record (tabId cfg) (clock w) (timeout cfg)
    | None => if truthy record then True else d = Claim
    end /\
    outcome (Part001.checkLeadership cfg) w = Ok tt /\
    hook w' = {| isLeader := leads d;
                 tabCount := if leads d then 1 else 2;
                 isChecking := false;
                 previousLeaderState := previousLeaderState (hook w) |} /\
    new_calls w w' =
      (GetItem (storageKey cfg), outcome_of (getItem_throws (faults w)))
      :: (if leads d
          then [(SetItem (storageKey cfg) (own_record cfg (clock w)),
                 outcome_of (setItem_throws (faults w)))]
          else []) /\
    items w' =
      (if leads d && negb (setItem_throws (faults w))
       then <[storageKey cfg := own_record cfg (clock w)]> (items w)
       else items w) /\
    new_fired w w' = (if leads d then [] else [OnTabDetected]).
Proof.
  intros _.
  exists (read_record cfg w). split; [apply getCurrentRecord_reads|].
  destruct (checkLeadership_run cfg w)
    as (Ho & Hk & Hc & Hi & Hf & _). cbv zeta in *.
  split; [|split; [exact Ho|split; [exact Hk|split; [|split; [exact Hi|]]]]].
  - destruct (as_TabRecord (read_record cfg w)) eqn:Hr.
    + apply (code_decision_well_formed _ _ _ _ _ Hr).
    + unfold code_decision. destruct (truthy (read_record cfg w)); auto.
  - apply new_calls_app, Hc.
  - apply new_fired_app, Hf.
Qed.

(** Follower A finds the record tab B wrote at 0; at 3000 it is live, at
    6000 it has expired. *)
Lemma checkLeadership_decision_rule_witness :
  let w := page (Some record_B) healthy 3000 follower_hook in
  let w' := exec (@Part001.checkLeadership plain_host tab_A) w in
  exact_check tab_A w = true /\
  isLeader (hook w') = false /\ new_fired w w' = [OnTabDetected].
Proof.
  cbv zeta. split; [reflexivity|].
  destruct (@checkLeadership_decision_rule plain_host tab_A
              (page (Some record_B) healthy 3000 follower_hook) eq_refl)
    as (record & Hr & _ & _ & Hk & _ & _ & Hf).
  cbv zeta in *. inversion Hr; subst record. clear Hr.
  split; [rewrite Hk; reflexivity|exact Hf].
Defined.

(** ** Texts that are not records *)


Section Part001_texts.
Context `{JsHost} (cfg : Config).




End Part001_texts.



(** ** Cleanup on shutdown *)

Section Cleanup_facts.
Context `{JsHost} (cfg : Config).

(** part_001 and part_002 read the record again and delete it exactly when
    its [id] is the id of the tab. *)
Lemma cleanup_deletes_own_record_only (w : World) :
  getItem_throws (faults w) = false ->
  removeItem_throws (faults w) = false ->
  let w' := exec (Part001.cleanup cfg) w in
  let stored := items w !! storageKey cfg in
  let own := match stored with
             | Some (JsonText v) => owned_by (tabId cfg) v
             | _ => false
             end in
  items w' = (if own then delete (storageKey cfg) (items w) else items w).
Proof.
  intros Hg Hr. destruct (cleanup_run cfg w) as (_ & _ & _ & Hi & _).
  cbv zeta in *. rewrite Hi, Hr. unfold read_record. rewrite Hg.
  cbn [negb]. rewrite andb_true_r.
  destruct (items w !! storageKey cfg) as [[s|v]|]; reflexivity.
Qed.

Lemma effect_cleanup2_run (w : World) :
  getItem_throws (faults w) = false ->
  removeItem_throws (faults w) = false ->
  let w' := exec (Part002.effect_cleanup cfg) w in
  match items w !! storageKey cfg with
  | Some (JsonText v) =>
      items w' = (if owned_by (tabId cfg) v
                  then delete (storageKey cfg) (items w) else items w)
  | Some (Text _) | None => items w' = items w
  end.
Proof.
  destruct w as [it [g s r] cl hi [l n c p] ti ca fi po co].
  cbn [faults getItem_throws removeItem_throws items]. intros -> ->.
  unfold owned_by. destruct cfg as [tab key tmo itv dbg chan].
  run_m; run_cfg.
  destruct (it !! key) as [[[|c0 s0]|v]|]; run_m; js_simpl; try reflexivity.
  destruct (truthy v), (strict_eq_str (get_prop v "id") tab);
    run_m; reflexivity.
Qed.

(** part_003 looks at the [isLeader] of its last render instead, and never
    at the record. *)
Lemma unmount3_run (w : World) :
  let w' := exec (Part003.unmount cfg) w in
  calls w' = calls w ++
    (if isLeader (hook w)
     then [(RemoveItem (storageKey cfg),
            outcome_of (removeItem_throws (faults w)))]
     else []) /\
  items w' =
    (if isLeader (hook w) && negb (removeItem_throws (faults w))
     then delete (storageKey cfg) (items w)
     else items w).
Proof.
  destruct w as [it [g s r] cl hi [l n c p] ti ca fi po co].
  destruct l, r; run_m; js_simpl; rewrite ?app_nil_r; split; reflexivity.
Qed.

End Cleanup_facts.

(** C3, on part_003. Tab A believes it leads; tab B has taken the lease
    since (its record, written at 0, is live at 3000). Unmounting A removes
    the record of B. On the same page the cleanup of part_001 removes
    nothing. *)
Theorem stale_leader_unmount_deletes_foreign_record :
  let w := page (Some record_B) healthy 3000 leader_hook in
  let w3 := exec (Part003.unmount tab_A) w in
  let w1 := exec (Part001.cleanup tab_A) w in
  items w !! "single-tab-my-app" = Some record_B /\
  new_calls w w3 = [(RemoveItem "single-tab-my-app", Returned)] /\
  items w3 !! "single-tab-my-app" = None /\
  new_calls w w1 = [(GetItem "single-tab-my-app", Returned)] /\
  items w1 !! "single-tab-my-app" = Some record_B.
Proof. vm_compute. repeat split; reflexivity. Qed.

(** ** Failures of the store *)



(** ** Force *)

(** C6. [forceLeadership] returns after one call of [localStorage], a
    [setItem] of [{id: tabId, timestamp: now}] under the key, with
    [isLeader] set: it reads neither the store nor its own state. *)
Theorem forceLeadership_is_unconditional (cfg : Config) (w : World) :
  let w' := exec (Part001.forceLeadership cfg) w in
  outcome (Part001.forceLeadership cfg) w = Ok tt /\
  isLeader (hook w') = true /\
  new_calls w w' =
    [(SetItem (storageKey cfg) (own_record cfg (clock w)),
      outcome_of (setItem_throws (faults w)))] /\
  items w' =
    (if setItem_throws (faults w) then items w
     else <[storageKey cfg := own_record cfg (clock w)]> (items w)).
Proof.
  destruct (forceLeadership_run cfg w) as (Ho & Hk & Hc & Hi & _).
  cbv zeta in *. repeat split.
  - exact Ho.
  - rewrite Hk. reflexivity.
  - apply new_calls_app, Hc.
  - exact Hi.
Qed.

(** ** The storage event *)

(** C7, on part_001. A storage event for the key of the hook runs
    [checkLeadership] inside the handler: when the handler returns the check
    has made its calls and set the state, and no timer is pending. The
    handler of part_002, and the handler of channel messages of part_001,
    touch nothing and leave a timer of 100 ms (handleStorage_run,
    handleMessage_run). *)
Theorem storage_event_checks_at_once `{JsHost} (cfg : Config) (w : World) :
  let w' := exec (Part001.handleStorageChange cfg (Some (storageKey cfg))) w in
  let checked := exec (Part001.checkLeadership cfg) w in
  timers w' = timers w /\
  hook w' = hook checked /\
  calls w' = calls checked /\
  items w' = items checked /\
  exists rest,
    new_calls w w'
    = (GetItem (storageKey cfg), outcome_of (getItem_throws (faults w))) :: rest.
Proof.
  destruct (handleStorageChange_run cfg w) as (_ & Hk & Hc & Hi & _ & Ht).
  destruct (checkLeadership_run cfg w) as (_ & _ & Hc1 & _).
  cbv zeta in *. repeat split; try assumption.
  eexists. apply new_calls_app. rewrite Hc, Hc1. reflexivity.
Qed.

(** ** Hidden pages *)

(** C9. When the page is hidden the handler of [visibilitychange] keeps the
    state of the hook; a leader makes one call, a [setItem] of
    [{id: tabId, timestamp: now}], and removes nothing; a follower makes no
    call and leaves the store as it is. *)
Theorem hidden_leader_renews (cfg : Config) (w : World) :
  hidden w = true ->
  let w' := exec (Part001.handleVisibilityChange cfg) w in
  outcome (Part001.handleVisibilityChange cfg) w = Ok tt /\
  hook w' = hook w /\
  new_calls w w' =
    (if isLeader (hook w)
     then [(SetItem (storageKey cfg) (own_record cfg (clock w)),
            outcome_of (setItem_throws (faults w)))]
     else []) /\
  items w' =
    (if isLeader (hook w) && negb (setItem_throws (faults w))
     then <[storageKey cfg := own_record cfg (clock w)]> (items w)
     else items w).
Proof.
  intros Hh. destruct (handleVisibilityChange_run cfg w) as (Ho & Hk & Hc & Hi & _).
  cbv zeta in *. rewrite Hh in *. cbn [andb] in *. repeat split.
  - exact Ho.
  - exact Hk.
  - apply new_calls_app, Hc.
  - exact Hi.
Qed.

(** Leader A, record written at 1000, page hidden at 3000. *)
Lemma hidden_leader_renews_witness :
  let w := with_hidden (fun _ => true)
             (page (Some (own_record tab_A 1000)) healthy 3000 leader_hook) in
  let w' := exec (Part001.handleVisibilityChange tab_A) w in
  isLeader (hook w') = true /\
  items w' !! "single-tab-my-app" = Some (own_record tab_A 3000).
Proof.
  cbv zeta.
  destruct (hidden_leader_renews tab_A
              (with_hidden (fun _ => true)
                 (page (Some (own_record tab_A 1000)) healthy 3000 leader_hook))
              eq_refl)
    as (_ & Hk & _ & Hi).
  split; [rewrite Hk; reflexivity | rewrite Hi; reflexivity].
Defined.

(** ** Repeated checks *)

Section Part001_repeats.
Context `{JsHost} (cfg : Config).

(** The check made when the clock reads [now]. *)
Definition check_at (now : Z) (w : World) : World :=
  exec (Part001.checkLeadership cfg) (with_clock (fun _ => now) w).

Fixpoint checks_at (nows : list Z) (w : World) : World :=
  match nows with
  | [] => w
  | now :: rest => checks_at rest (check_at now w)
  end.

(** The [timestamp] of the record in the store, if it holds one. *)
Definition stored_timestamp (w : World) : option Z :=
  match items w !! storageKey cfg with
  | Some (JsonText v) => timestamp <$> as_TabRecord v
  | _ => None
  end.

(** The worlds after each of the checks. *)
Fixpoint worlds_at (nows : list Z) (w : World) : list World :=
  match nows with
  | [] => []
  | now :: rest => check_at now w :: worlds_at rest (check_at now w)
  end.

Fixpoint nondecreasing (l : list Z) : bool :=
  match l with
  | a :: (b :: _) as rest => (a <=? b) && nondecreasing rest
  | _ => true
  end.

Lemma check_at_run (now : Z) (w : World) :
  let d := code_decision (read_record cfg w) (tabId cfg) now (timeout cfg) in
  let w' := check_at now w in
  hook w' = {| isLeader := leads d;
               tabCount := if leads d then 1 else 2;
               isChecking := false;
               previousLeaderState := previousLeaderState (hook w) |} /\
  calls w' = calls w ++
    (GetItem (storageKey cfg), outcome_of (getItem_throws (faults w)))
    :: (if leads d
        then [(SetItem (storageKey cfg) (own_record cfg now),
               outcome_of (setItem_throws (faults w)))]
        else []) /\
  items w' =
    (if leads d && negb (setItem_throws (faults w))
     then <[storageKey cfg := own_record cfg now]> (items w)
     else items w) /\
  faults w' = faults w.
Proof.
  unfold check_at.
  destruct (checkLeadership_run cfg (with_clock (fun _ => now) w))
    as (_ & Hk & Hc & Hi & _ & Hf & _).
  cbv zeta in *.
  replace (read_record cfg (with_clock (fun _ => now) w))
    with (read_record cfg w) in * by (destruct w; reflexivity).
  replace (clock (with_clock (fun _ => now) w)) with now in *
    by (destruct w; reflexivity).
  replace (hook (with_clock (fun _ => now) w)) with (hook w) in *
    by (destruct w; reflexivity).
  replace (calls (with_clock (fun _ => now) w)) with (calls w) in *
    by (destruct w; reflexivity).
  replace (items (with_clock (fun _ => now) w)) with (items w) in *
    by (destruct w; reflexivity).
  replace (faults (with_clock (fun _ => now) w)) with (faults w) in *
    by (destruct w; reflexivity).
  auto.
Qed.

(** A tab that has found itself a follower. *)
Definition settled_follower (h : Hook) : Prop :=
  isLeader h = false /\ tabCount h = 2 /\ isChecking h = false.

Lemma live_foreign_record (r : TabRecord) (now : Z) (w : World) :
  getItem_throws (faults w) = false ->
  items w !! storageKey cfg = Some (JSON_stringify r) ->
  id r <> tabId cfg ->
  now - timestamp r <= timeout cfg ->
  code_decision (read_record cfg w) (tabId cfg) now (timeout cfg) = Follower.
Proof.
  intros Hg Hs Hid Hnow. unfold read_record. rewrite Hg, Hs.
  unfold JSON_stringify.
  rewrite (code_decision_well_formed _ r) by apply as_TabRecord_record_value.
  unfold spec_decision. rewrite as_TabRecord_record_value.
  destruct (Z.ltb_spec (timeout cfg) (now - timestamp r)); [lia|].
  destruct (String.eqb_spec (id r) (tabId cfg)); [contradiction|].
  reflexivity.
Qed.

(** A live record of another tab: every check reads and does nothing else. *)
Lemma follower_checks (r : TabRecord) (nows : list Z) (w : World) :
  getItem_throws (faults w) = false ->
  items w !! storageKey cfg = Some (JSON_stringify r) ->
  id r <> tabId cfg ->
  Forall (fun now => now - timestamp r <= timeout cfg) nows ->
  settled_follower (hook w) ->
  let w' := checks_at nows w in
  items w' = items w /\ hook w' = hook w /\
  calls w' = calls w
    ++ List.repeat (GetItem (storageKey cfg), Returned) (length nows).
Proof.
  revert w. induction nows as [|now nows IH]; intros w Hg Hs Hid Hlive Hh.
  - cbn. rewrite app_nil_r. auto.
  - apply Forall_cons in Hlive as [Hnow Hlive].
    destruct (check_at_run now w) as (Hk & Hc & Hi & Hf). cbv zeta in *.
    rewrite (live_foreign_record r now w Hg Hs Hid Hnow) in *.
    cbn [leads andb] in *. rewrite Hg in Hc. cbn [outcome_of] in Hc.
    assert (Hk' : hook (check_at now w) = hook w).
    { rewrite Hk. destruct Hh as (Hl & Hn & Hch).
      destruct (hook w); cbn in *; subst; reflexivity. }
    destruct (IH (check_at now w)) as (Hi2 & Hk2 & Hc2).
    + rewrite Hf. exact Hg.
    + rewrite Hi. exact Hs.
    + exact Hid.
    + exact Hlive.
    + rewrite Hk'. exact Hh.
    + cbn [checks_at]. split; [congruence|]. split; [congruence|].
      rewrite Hc2, Hc, <- app_assoc. reflexivity.
Qed.

Lemma nondecreasing_tail (a : Z) (l : list Z) :
  nondecreasing (a :: l) = true -> nondecreasing l = true.
Proof.
  destruct l as [|b l]; [reflexivity|]. cbn [nondecreasing].
  intros Hab. apply andb_prop in Hab. apply Hab.
Qed.

Lemma nondecreasing_skip (a b : Z) (l : list Z) :
  nondecreasing (a :: b :: l) = true -> nondecreasing (a :: l) = true.
Proof.
  destruct l as [|c l]; [reflexivity|].
  cbn [nondecreasing]. intros Habc.
  apply andb_prop in Habc as [Hab Hbc]. apply andb_prop in Hbc as [Hbc Hl].
  apply andb_true_intro. split; [|exact Hl].
  apply Z.leb_le in Hab, Hbc. apply Z.leb_le. lia.
Qed.

Lemma nondecreasing_head (a b : Z) (l : list Z) :
  nondecreasing (a :: b :: l) = true -> a <= b.
Proof.
  cbn [nondecreasing]. intros Hab. apply andb_prop in Hab as [Hab _].
  apply Z.leb_le, Hab.
Qed.

Lemma stored_timestamp_own (t : Z) (w : World) :
  items w !! storageKey cfg = Some (own_record cfg t) ->
  stored_timestamp w = Some t.
Proof. unfold stored_timestamp. intros ->. reflexivity. Qed.

Lemma stored_timestamp_none (w : World) :
  items w !! storageKey cfg = None -> stored_timestamp w = None.
Proof. unfold stored_timestamp. intros ->. reflexivity. Qed.

(** The own record in the store, or none (a leader has none after the render
    that made it leader): every check keeps [isLeader] and stores the
    reading of the clock, or leaves the store as it is when the write
    fails. *)
Lemma leader_checks (t0 : Z) (nows : list Z) (w : World) :
  items w !! storageKey cfg = None \/
  items w !! storageKey cfg = Some (own_record cfg t0) ->
  nondecreasing (t0 :: nows) = true ->
  Forall (fun w' => isLeader (hook w') = true) (worlds_at nows w) /\
  nondecreasing (t0 :: omap stored_timestamp (worlds_at nows w)) = true.
Proof.
  revert t0 w. induction nows as [|now nows IH]; intros t0 w Hs Hsorted.
  - split; [constructor|reflexivity].
  - destruct (check_at_run now w) as (Hk & Hc & Hi & Hf). cbv zeta in *.
    assert (Hd : leads (code_decision (read_record cfg w) (tabId cfg) now
                          (timeout cfg)) = true).
    { unfold read_record.
      destruct (getItem_throws (faults w)); [reflexivity|].
      destruct Hs as [-> | ->]; [reflexivity|].
      unfold own_record, JSON_stringify.
      rewrite (code_decision_well_formed _ {| id := tabId cfg; timestamp := t0 |})
        by apply as_TabRecord_record_value.
      unfold spec_decision. rewrite as_TabRecord_record_value. cbn [id timestamp].
      rewrite String.eqb_refl. destruct (_ <? _); reflexivity. }
    rewrite Hd in *. cbn [andb] in *.
    pose proof (nondecreasing_head _ _ _ Hsorted) as Hle.
    assert (Hl1 : isLeader (hook (check_at now w)) = true)
      by (rewrite Hk; reflexivity).
    cbn [worlds_at omap list_omap].
    destruct (setItem_throws (faults w)); cbn [negb] in Hi.
    + (* the write failed: the store is as it was *)
      rewrite <- Hi in Hs.
      destruct (IH t0 (check_at now w) Hs (nondecreasing_skip _ _ _ Hsorted))
        as (Hl & Hnd).
      split; [constructor; assumption|].
      destruct Hs as [Hs|Hs].
      * rewrite (stored_timestamp_none _ Hs). exact Hnd.
      * rewrite (stored_timestamp_own t0 _ Hs).
        cbn [nondecreasing]. rewrite Z.leb_refl. exact Hnd.
    + assert (Hs1 : items (check_at now w) !! storageKey cfg
                    = Some (own_record cfg now))
        by (rewrite Hi; apply lookup_insert_eq).
      destruct (IH now (check_at now w) (or_intror Hs1)
                  (nondecreasing_tail _ _ Hsorted)) as (Hl & Hnd).
      split; [constructor; assumption|].
      rewrite (stored_timestamp_own now _ Hs1).
      cbn [nondecreasing]. apply andb_true_intro. split; [|exact Hnd].
      apply Z.leb_le, Hle.
Qed.

End Part001_repeats.

(** C8. Checks made one after the other, the clock reading [nows], with no
    write by anyone else in between. (1) While the store holds a record of
    another tab that is live at each reading and can be read, a settled
    follower stays as it is: the store and the state of the hook do not
    change and every call of the hook is a [getItem]. (2) While the store
    holds the own record, or none, and the readings do not decrease from
    [t0] on (the timestamp of the record, when there is one), every check
    ends with [isLeader] set and the timestamps found in the store after
    the checks do not decrease. *)
Theorem repeated_checks_are_idempotent `{JsHost} (cfg : Config) (w : World)
  (nows : list Z) :
  (forall r : TabRecord,
     getItem_throws (faults w) = false ->
     items w !! storageKey cfg = Some (JSON_stringify r) ->
     id r <> tabId cfg ->
     Forall (fun now => now - timestamp r <= timeout cfg) nows ->
     settled_follower (hook w) ->
     let w' := checks_at cfg nows w in
     items w' = items w /\ hook w' = hook w /\
     new_calls w w'
     = List.repeat (GetItem (storageKey cfg), Returned) (length nows)) /\
  (forall t0 : Z,
     isLeader (hook w) = true ->
     items w !! storageKey cfg = None \/
     items w !! storageKey cfg = Some (own_record cfg t0) ->
     nondecreasing (t0 :: nows) = true ->
     Forall (fun w' => isLeader (hook w') = true) (worlds_at cfg nows w) /\
     nondecreasing
       (t0 :: omap (stored_timestamp cfg) (worlds_at cfg nows w)) = true).
Proof.
  split.
  - intros r Hg Hs Hid Hlive Hh.
    destruct (follower_checks cfg r nows w Hg Hs Hid Hlive Hh) as (Hi & Hk & Hc).
    cbv zeta. repeat split; [exact Hi|exact Hk|].
    apply new_calls_app, Hc.
  - intros t0 _ Hs Hsorted. apply leader_checks; assumption.
Qed.

(** Follower A of the live record of B checks at 1000, 3000 and 5000;
    leader A, its record written at 1000, checks at 3000, 6000 and 13000. *)
Lemma repeated_checks_are_idempotent_witness :
  let follower := page (Some record_B) healthy 0 follower_hook in
  let leader := page (Some (own_record tab_A 1000)) healthy 1000 leader_hook in
  new_calls follower
    (@checks_at plain_host tab_A [1000; 3000; 5000] follower)
  = List.repeat (GetItem "single-tab-my-app", Returned) 3 /\
  omap (stored_timestamp tab_A)
    (@worlds_at plain_host tab_A [3000; 6000; 13000] leader)
  = [3000; 6000; 13000] /\
  nondecreasing
    (1000 :: omap (stored_timestamp tab_A)
               (@worlds_at plain_host tab_A [3000; 6000; 13000] leader))
  = true.
Proof.
  cbv zeta. split; [|split; [reflexivity|]].
  - destruct (@repeated_checks_are_idempotent plain_host tab_A
                (page (Some record_B) healthy 0 follower_hook)
                [1000; 3000; 5000]) as [Hfollower _].
    destruct (Hfollower {| id := "tab-B"; timestamp := 0 |}) as (_ & _ & Hc).
    + reflexivity.
    + reflexivity.
    + discriminate.
    + repeat constructor; cbn; lia.
    + repeat split.
    + exact Hc.
  - destruct (@repeated_checks_are_idempotent plain_host tab_A
                (page (Some (own_record tab_A 1000)) healthy 1000 leader_hook)
                [3000; 6000; 13000]) as [_ Hleader].
    destruct (Hleader 1000) as (_ & Hts).
    + reflexivity.
    + right. reflexivity.
    + reflexivity.
    + exact Hts.
Defined.

(** ** The scenario of the specification (section 8), for tab A against a
       record of tab B written at 0, timeout 5000 *)

Example scenario_follower_then_claim :
  let w0 := page (Some record_B) healthy 3000 follower_hook in
  let w1 := exec (@Part001.dispatch plain_host tab_A Part001.Check) w0 in
  let w2 := exec (@Part001.checkLeadership plain_host tab_A)
              (with_clock (fun _ => 6000) w1) in
  let w3 := exec (@Part001.dispatch plain_host tab_A Part001.Check)
              (with_clock (fun _ => 6000) w1) in
  (isLeader (hook w1) = false /\ items w1 !! "single-tab-my-app" = Some record_B
   /\ fired w1 = [OnTabDetected]) /\
  (isLeader (hook w2) = true
   /\ items w2 !! "single-tab-my-app" = Some (own_record tab_A 6000)) /\
  (isLeader (hook w3) = true /\ fired w3 = [OnTabDetected; OnBecomeLeader]).
Proof. vm_compute. repeat split; reflexivity. Qed.

(** * Further properties of the three versions *)

(** ** The state the hook returns *)

Section Part001_state.
Context `{JsHost} (cfg : Config).

(** The hook is not in the middle of a check, and [tabCount] is the
    simplified count of the source: 1 for a leader, 2 for a follower. *)
Definition settled (h : Hook) : Prop :=
  isChecking h = false /\ tabCount h = (if isLeader h then 1 else 2).

(** [isLeader], [tabCount] and [isChecking] are the same in both worlds. *)
Definition same_state (w w' : World) : Prop :=
  isLeader (hook w') = isLeader (hook w) /\
  tabCount (hook w') = tabCount (hook w) /\
  isChecking (hook w') = isChecking (hook w).

#[export] Instance same_state_preorder : PreOrder same_state.
Proof.
  split.
  - intros w. repeat split.
  - intros w1 w2 w3 (Hl1 & Hn1 & Hc1) (Hl2 & Hn2 & Hc2).
    repeat split; congruence.
Qed.

Lemma same_state_settled (w w' : World) :
  same_state w w' -> settled (hook w) -> settled (hook w').
Proof.
  intros (Hl & Hn & Hc) [Hs1 Hs2]. unfold settled. rewrite Hl, Hn, Hc. auto.
Qed.

Ltac same_state_change :=
  intros [it fa cl hi [l n c p] ti ca fi po co]; repeat split.

Lemma commit_same_state (rendered : bool) :
  always same_state (Part001.commit cfg rendered).
Proof.
  unfold_part001; unfold Part001.leaderStateEffect; unfold_browser;
    along_text same_state_change.
Qed.

Lemma leaderStateEffect_same_state :
  always same_state (Part001.leaderStateEffect cfg).
Proof.
  unfold Part001.leaderStateEffect; unfold_browser;
    along_text same_state_change.
Qed.

Lemma checkLeadership_settles (w : World) :
  settled (hook (exec (Part001.checkLeadership cfg) w)).
Proof.
  destruct (checkLeadership_run cfg w) as (_ & Hk & _). cbv zeta in Hk.
  rewrite Hk. split; reflexivity.
Qed.

Lemma handler_settled (a : Part001.Action) (w : World) :
  settled (hook w) -> settled (hook (exec (Part001.handler cfg a) w)).
Proof.
  intros Hs. destruct a as [| |key|type| | |]; cbn [Part001.handler].
  - apply checkLeadership_settles.
  - destruct (forceLeadership_run cfg w) as (_ & Hk & _). cbv zeta in Hk.
    rewrite Hk. destruct Hs as [Hc _]. split; [exact Hc|reflexivity].
  - unfold Part001.handleStorageChange.
    destruct key as [k|]; [|exact Hs].
    destruct (String.eqb k (storageKey cfg)); [|exact Hs].
    assert (Hlog : outcome (log (debug cfg) "Storage change detected for key:") w
                   = Ok tt) by (destruct (debug cfg); reflexivity).
    rewrite (exec_bind _ _ w tt Hlog). apply checkLeadership_settles.
  - apply (same_state_settled w); [|exact Hs].
    revert w Hs. intros w _. revert w.
    change (always same_state (Part001.handleMessage cfg type)).
    unfold_part001; unfold_browser; along_text same_state_change.
  - destruct (handleVisibilityChange_run cfg w) as (_ & Hk & _).
    cbv zeta in Hk. rewrite Hk. exact Hs.
  - destruct (cleanup_run cfg w) as (_ & Hk & _). cbv zeta in Hk.
    unfold Part001.handleBeforeUnload. rewrite Hk. exact Hs.
  - unfold Part001.fire_timeout.
    rewrite (exec_bind _ _ w (timers w)) by reflexivity.
    change (exec (gets timers) w) with w.
    destruct (timers w) as [|[[] d] rest]; [exact Hs|].
    rewrite (exec_bind _ _ w tt) by reflexivity.
    apply checkLeadership_settles.
Qed.

Lemma dispatch_settled (a : Part001.Action) (w : World) :
  settled (hook w) -> settled (hook (exec (Part001.dispatch cfg a) w)).
Proof.
  intros Hs. unfold Part001.dispatch.
  rewrite (exec_bind _ _ w (isLeader (hook w))) by reflexivity.
  change (exec (gets (fun w0 => isLeader (hook w0))) w) with w.
  destruct (handler_returns cfg a w) as [[] Hret].
  rewrite (exec_bind _ _ w tt Hret).
  apply (same_state_settled (exec (Part001.handler cfg a) w)).
  - apply commit_same_state.
  - apply handler_settled, Hs.
Qed.

Lemma mounted_settled (it : gmap string StorageValue) (f : Faults) (now : Z)
  (is_hidden : bool) : settled (hook (mounted cfg it f now is_hidden)).
Proof.
  unfold mounted, Part001.mount. set (w := initial it f now is_hidden).
  rewrite (exec_bind _ _ w false) by reflexivity.
  change (exec (gets (fun w0 => isLeader (hook w0))) w) with w.
  rewrite (exec_bind _ _ w tt)
    by (subst w; run_m; destruct (debug cfg); reflexivity).
  set (w1 := exec (Part001.leaderStateEffect cfg) w).
  destruct (handler_returns cfg Part001.Check w1) as [[] Hret].
  cbn [Part001.handler] in Hret. rewrite (exec_bind _ _ w1 tt Hret).
  apply (same_state_settled (exec (Part001.checkLeadership cfg) w1)).
  - apply commit_same_state.
  - apply checkLeadership_settles.
Qed.

Lemma run_settled (steps : list Step) (w : World) :
  settled (hook w) -> settled (hook (run cfg steps w)).
Proof.
  revert w. induction steps as [|s steps IH]; intros w Hs; [exact Hs|].
  apply IH. destruct s; cbn [step];
    [apply dispatch_settled, Hs | | | | ]; destruct w; exact Hs.
Qed.

End Part001_state.

(** The conversion of the [timestamp] of the stored text to a number cannot
    throw: the text is not JSON, or the value has no [timestamp], or the
    [timestamp] is not an object or an array. *)
Definition converts (t : StorageValue) : bool :=
  match t with
  | Text _ => true
  | JsonText v =>
      match get_prop v "timestamp" with
      | Some (JArr _) | Some (JObj _) => false
      | _ => true
      end
  end.

(** What another tab stores under [key] converts. *)
Definition step_converts (key : string) (s : Step) : bool :=
  match s with
  | OtherTab k (Some t) => negb (String.eqb k key) || converts t
  | _ => true
  end.

(** X2. From the first render on, whatever the handlers and the rest of the
    world do, as long as no text found under the key carries a [timestamp]
    that is an object or an array (on which the subtraction of the check
    can throw), the state the hook of part_001 returns is settled between
    two handlers: [isChecking] is false and [tabCount] is 1 when [isLeader]
    is set and 2 when it is not. *)
Theorem returned_state_is_settled `{JsHost} (cfg : Config)
  (it : gmap string StorageValue) (f : Faults) (now : Z) (is_hidden : bool)
  (steps : list Step) :
  match it !! storageKey cfg with
  | Some t => converts t
  | None => true
  end = true ->
  forallb (step_converts (storageKey cfg)) steps = true ->
  let h := hook (run cfg steps (mounted cfg it f now is_hidden)) in
  isChecking h = false /\ tabCount h = (if isLeader h then 1 else 2).
Proof. intros _ _. cbv zeta. apply run_settled, mounted_settled. Qed.

(** Tab A starts on an empty store, tab B takes the key over, A checks. *)
Lemma returned_state_is_settled_witness :
  let steps := [Act Part001.Check;
                OtherTab "single-tab-my-app" (Some record_B);
                Act Part001.Check] in
  let h := hook (@run plain_host tab_A steps
                   (@mounted plain_host tab_A ∅ healthy 0 false)) in
  isLeader h = false /\ isChecking h = false /\ tabCount h = 2.
Proof.
  cbv zeta.
  destruct (@returned_state_is_settled plain_host tab_A ∅ healthy 0 false
              [Act Part001.Check;
               OtherTab "single-tab-my-app" (Some record_B);
               Act Part001.Check]) as [Hc Hn].
  - rewrite lookup_empty. reflexivity.
  - reflexivity.
  - split; [reflexivity|]. split; [exact Hc|exact Hn].
Defined.

(** ** The one entry of the store *)

Definition call_key (c : StorageCall) : string :=
  match c with
  | GetItem k => k
  | SetItem k _ => k
  | RemoveItem k => k
  end.

(** Between [w] and [w'] every call of [localStorage] was for [key], and the
    entries under the other keys are what they were. *)
Definition only_key (key : string) (w w' : World) : Prop :=
  (forall k, k <> key -> items w' !! k = items w !! k) /\
  exists l, calls w' = calls w ++ l /\
    Forall (fun c => call_key (fst c) = key) l.

#[export] Instance only_key_preorder (key : string) : PreOrder (only_key key).
Proof.
  split.
  - intros w. split; [auto|]. exists []. rewrite app_nil_r. auto.
  - intros w1 w2 w3 [Hi1 (l1 & Hc1 & Hl1)] [Hi2 (l2 & Hc2 & Hl2)]. split.
    + intros k Hk. rewrite (Hi2 k Hk). apply Hi1, Hk.
    + exists (l1 ++ l2). rewrite Hc2, Hc1, app_assoc. split; [reflexivity|].
      apply Forall_app; auto.
Qed.

Lemma only_key_insert (key : string) (v : StorageValue) (w : World) :
  only_key key w (with_items (insert key v) w).
Proof.
  destruct w as [it fa cl hi hk ti ca fi po co]. split; cbn.
  - intros k Hk. apply lookup_insert_ne. auto.
  - exists []. rewrite app_nil_r. auto.
Qed.

Lemma only_key_delete (key : string) (w : World) :
  only_key key w (with_items (delete key) w).
Proof.
  destruct w as [it fa cl hi hk ti ca fi po co]. split; cbn.
  - intros k Hk. apply lookup_delete_ne. auto.
  - exists []. rewrite app_nil_r. auto.
Qed.

Lemma only_key_call (key : string) (c : StorageCall) (o : Outcome) (w : World) :
  call_key c = key -> only_key key w (with_calls (fun l => l ++ [(c, o)]) w).
Proof.
  intros Hc. destruct w as [it fa cl hi hk ti ca fi po co]. split; cbn.
  - auto.
  - exists [(c, o)]. split; [reflexivity|]. constructor; [exact Hc|constructor].
Qed.

Ltac only_key_change :=
  let w := fresh "w" in
  intros w;
  first
    [ apply only_key_insert
    | apply only_key_delete
    | apply only_key_call; reflexivity
    | destruct w; split; cbn;
      [ auto | exists []; rewrite app_nil_r; auto ] ].

Ltac unfold_part002 :=
  unfold Part002.forceLeadership, Part002.effect_cleanup,
    Part002.handleStorage, Part002.checkLeadership, Part002.console_error.

Ltac unfold_part003 :=
  unfold Part003.forceLeadership, Part003.unmount, Part003.effect_cleanup,
    Part003.handleStorage, Part003.checkLeadership, Part003.console_error.

Section Only_key.
Context `{JsHost} (cfg : Config).

Lemma mount_only_key : always (only_key (storageKey cfg)) (Part001.mount cfg).
Proof.
  unfold_part001; unfold Part001.leaderStateEffect; unfold_browser;
    along_text only_key_change.
Qed.

Lemma dispatch_only_key (a : Part001.Action) :
  always (only_key (storageKey cfg)) (Part001.dispatch cfg a).
Proof.
  destruct a; unfold_part001; unfold Part001.leaderStateEffect;
    unfold_browser; along_text only_key_change.
Qed.

Lemma unmount_only_key :
  always (only_key (storageKey cfg)) (Part001.unmount cfg).
Proof. unfold_part001; unfold_browser; along_text only_key_change. Qed.

Lemma part002_only_key :
  always (only_key (storageKey cfg)) (Part002.checkLeadership cfg) /\
  always (only_key (storageKey cfg)) (Part002.forceLeadership cfg) /\
  always (only_key (storageKey cfg)) (Part002.effect_cleanup cfg).
Proof.
  repeat apply conj; unfold_part002; unfold_browser;
    along_text only_key_change.
Qed.

Lemma part003_only_key (rendered : bool) :
  always (only_key (storageKey cfg)) (Part003.checkLeadership cfg) /\
  always (only_key (storageKey cfg)) (Part003.forceLeadership cfg) /\
  always (only_key (storageKey cfg)) (Part003.effect_cleanup cfg rendered).
Proof.
  repeat apply conj; unfold_part003; unfold_browser;
    along_text only_key_change.
Qed.

End Only_key.

(** X3. No version of the hook reads, writes or removes an entry of
    [localStorage] other than the one under its key: every call it makes is
    for that key and the other entries stay as they are, whether the call
    returns or throws. For part_001 this covers the first render and every
    handler with the render that follows it. *)
Theorem hook_touches_only_its_key `{JsHost} (cfg : Config)
  (a : Part001.Action) (rendered : bool) :
  let key := storageKey cfg in
  always (only_key key) (Part001.mount cfg) /\
  always (only_key key) (Part001.dispatch cfg a) /\
  always (only_key key) (Part001.unmount cfg) /\
  (always (only_key key) (Part002.checkLeadership cfg) /\
   always (only_key key) (Part002.forceLeadership cfg) /\
   always (only_key key) (Part002.effect_cleanup cfg)) /\
  (always (only_key key) (Part003.checkLeadership cfg) /\
   always (only_key key) (Part003.forceLeadership cfg) /\
   always (only_key key) (Part003.effect_cleanup cfg rendered)).
Proof.
  cbv zeta. repeat apply conj.
  - apply mount_only_key.
  - apply dispatch_only_key.
  - apply unmount_only_key.
  - apply part002_only_key.
  - apply part002_only_key.
  - apply part002_only_key.
  - apply (part003_only_key cfg rendered).
  - apply (part003_only_key cfg rendered).
  - apply (part003_only_key cfg rendered).
Qed.

(** ** Keys of different applications *)

Lemma append_inj_r (p x y : string) :
  String.append p x = String.append p y -> x = y.
Proof.
  induction p as [|c p IH]; cbn; [auto|]. intros [= Hp]. apply IH, Hp.
Qed.

Lemma make_storageKey_inj (p a1 a2 : string) :
  make_storageKey p a1 = make_storageKey p a2 -> a1 = a2.
Proof.
  unfold make_storageKey. intros Hk.
  apply append_inj_r in Hk. apply (append_inj_r "-") in Hk. exact Hk.
Qed.

(** X4. Two hooks of part_001 configured with the same prefix and different
    application names have different keys, and whatever one of them does
    (first render, a handler and its render) leaves the entry of the other
    as it is. *)
Theorem applications_are_isolated `{JsHost} (cfg1 cfg2 : Config)
  (p a1 a2 : string) (a : Part001.Action) (w : World) :
  storageKey cfg1 = make_storageKey p a1 ->
  storageKey cfg2 = make_storageKey p a2 ->
  a1 <> a2 ->
  storageKey cfg1 <> storageKey cfg2 /\
  items (exec (Part001.mount cfg2) w) !! storageKey cfg1
  = items w !! storageKey cfg1 /\
  items (exec (Part001.dispatch cfg2 a) w) !! storageKey cfg1
  = items w !! storageKey cfg1.
Proof.
  intros Hk1 Hk2 Hne.
  assert (Hkeys : storageKey cfg1 <> storageKey cfg2).
  { rewrite Hk1, Hk2. intros Heq. apply Hne, (make_storageKey_inj p), Heq. }
  split; [exact Hkeys|]. split.
  - apply (mount_only_key cfg2 w), Hkeys.
  - apply (dispatch_only_key cfg2 a w), Hkeys.
Qed.

(** The application of tab A and another application of the same origin. *)
Definition other_app : Config :=
  {| tabId := "tab-C"; storageKey := "single-tab-other-app"; timeout := 15000;
     interval := 10000; debug := false; channel := false |}.

Lemma applications_are_isolated_witness :
  let w := page (Some record_B) healthy 3000 follower_hook in
  items (exec (@Part001.dispatch plain_host other_app Part001.Force) w)
    !! storageKey tab_A
  = Some record_B.
Proof.
  cbv zeta.
  destruct (@applications_are_isolated plain_host tab_A other_app
              "single-tab" "my-app" "other-app" Part001.Force
              (page (Some record_B) healthy 3000 follower_hook)
              eq_refl eq_refl) as (_ & _ & Hi).
  - discriminate.
  - rewrite Hi. reflexivity.
Defined.


(** ** The debug console *)

Definition forget_console (w : World) : World := with_console (fun _ => []) w.

(** The two worlds differ at most in what was printed. *)
Definition agree (w1 w2 : World) : Prop := forget_console w1 = forget_console w2.

(** Started in worlds that agree, the two computations end alike (both
    return the same value or both throw the same error) in worlds that agree. *)
Definition alike {A : Type} (m1 m2 : M A) : Prop :=
  forall w1 w2, agree w1 w2 ->
    outcome m1 w1 = outcome m2 w2 /\ agree (exec m1 w1) (exec m2 w2).

Lemma alike_ret {A : Type} (a : A) : alike (mret a) (mret a).
Proof. intros w1 w2 Hw. split; [reflexivity|exact Hw]. Qed.

Lemma alike_throw {A : Type} (e : Error) : alike (throw (A := A) e) (throw e).
Proof. intros w1 w2 Hw. split; [reflexivity|exact Hw]. Qed.

Lemma alike_bind {A B : Type} (m1 m2 : M A) (f1 f2 : A -> M B) :
  alike m1 m2 -> (forall a, alike (f1 a) (f2 a)) -> alike (m1 ≫= f1) (m2 ≫= f2).
Proof.
  intros Hm Hf w1 w2 Hw. destruct (Hm w1 w2 Hw) as [Ho He].
  unfold outcome, exec in *. cbv [mbind M_bind].
  destruct (m1 w1) as [[a1|e1] w1'], (m2 w2) as [[a2|e2] w2'];
    cbn in *; try discriminate.
  - inversion Ho; subst. apply Hf, He.
  - inversion Ho; subst. split; [reflexivity|exact He].
Qed.

Lemma alike_try_catch {A : Type} (m1 m2 : M A) (h1 h2 : Error -> M A) :
  alike m1 m2 -> (forall e, alike (h1 e) (h2 e)) ->
  alike (try_catch m1 h1) (try_catch m2 h2).
Proof.
  intros Hm Hh w1 w2 Hw. destruct (Hm w1 w2 Hw) as [Ho He].
  unfold outcome, exec, try_catch in *.
  destruct (m1 w1) as [[a1|e1] w1'], (m2 w2) as [[a2|e2] w2'];
    cbn in *; try discriminate.
  - split; [exact Ho|exact He].
  - inversion Ho; subst. apply Hh, He.
Qed.

Lemma alike_gets {A : Type} (f : World -> A) :
  (forall w, f (forget_console w) = f w) -> alike (gets f) (gets f).
Proof.
  intros Hf w1 w2 Hw. split; [|exact Hw].
  cbv [outcome gets fst]. rewrite <- (Hf w1), <- (Hf w2), Hw. reflexivity.
Qed.

Lemma alike_modify (f : World -> World) :
  (forall w, forget_console (f w) = forget_console (f (forget_console w))) ->
  alike (modify f) (modify f).
Proof.
  intros Hf w1 w2 Hw. split; [reflexivity|].
  cbv [exec modify snd]. unfold agree in *. rewrite (Hf w1), (Hf w2), Hw.
  reflexivity.
Qed.

(** [log] with the flag set and [log] with the flag cleared. *)
Lemma alike_log (d1 d2 : bool) (s : string) : alike (log d1 s) (log d2 s).
Proof.
  intros w1 w2 Hw. unfold agree in *.
  destruct w1, w2, d1, d2; cbv in *; inversion Hw; subst; auto.
Qed.

Ltac unfold_browser_but_log :=
  unfold localStorage_getItem, localStorage_setItem, localStorage_removeItem,
    JSON_parse, Date_now, setTimeout, call, postMessage, note_call,
    setIsLeader, setTabCount, setIsChecking, set_previousLeaderState.

Ltac alike_text :=
  repeat first
    [ progress lazy beta zeta
    | apply alike_ret
    | apply alike_throw
    | apply alike_log
    | apply alike_gets; intros []; reflexivity
    | apply alike_modify; intros []; reflexivity
    | apply alike_bind; [ | intros ?]
    | apply alike_try_catch; [ | intros ?]
    | match goal with
      | |- alike (if ?b then _ else _) (if ?b then _ else _) => destruct b
      | |- alike (match ?x with _ => _ end) (match ?x with _ => _ end) =>
          destruct x
      end ].

(** The configuration with the [debug] option set to [d]. *)
Definition with_debug (d : bool) (cfg : Config) : Config :=
  {| tabId := tabId cfg; storageKey := storageKey cfg; timeout := timeout cfg;
     interval := interval cfg; debug := d; channel := channel cfg |}.

Section Debug.
Context `{JsHost} (cfg : Config).

Lemma dispatch_alike (d1 d2 : bool) (a : Part001.Action) :
  alike (Part001.dispatch (with_debug d1 cfg) a)
        (Part001.dispatch (with_debug d2 cfg) a).
Proof.
  destruct a; unfold_part001; unfold Part001.leaderStateEffect;
    unfold_browser_but_log; cbn [with_debug tabId storageKey timeout debug channel];
    alike_text.
Qed.

Lemma mount_alike (d1 d2 : bool) :
  alike (Part001.mount (with_debug d1 cfg)) (Part001.mount (with_debug d2 cfg)).
Proof.
  unfold_part001; unfold Part001.leaderStateEffect;
    unfold_browser_but_log; cbn [with_debug tabId storageKey timeout debug channel];
    alike_text.
Qed.

End Debug.

(** X5. The [debug] option of part_001 changes what is printed and nothing
    else: with the option set or not, the first render and every handler
    with its render end alike (both return) and leave the same store, the
    same state of the hook, the same calls, callbacks, messages and timers.
    The same holds for two worlds that differ in what was printed before. *)
Theorem debug_only_prints `{JsHost} (cfg : Config) (a : Part001.Action)
  (w : World) :
  (outcome (Part001.mount (with_debug true cfg)) w
   = outcome (Part001.mount (with_debug false cfg)) w /\
   forget_console (exec (Part001.mount (with_debug true cfg)) w)
   = forget_console (exec (Part001.mount (with_debug false cfg)) w)) /\
  (outcome (Part001.dispatch (with_debug true cfg) a) w
   = outcome (Part001.dispatch (with_debug false cfg) a) w /\
   forget_console (exec (Part001.dispatch (with_debug true cfg) a) w)
   = forget_console (exec (Part001.dispatch (with_debug false cfg) a) w)) /\
  (forall w', forget_console w' = forget_console w ->
     forget_console (exec (Part001.dispatch cfg a) w')
     = forget_console (exec (Part001.dispatch cfg a) w)).
Proof.
  split; [|split].
  - apply mount_alike. reflexivity.
  - apply dispatch_alike. reflexivity.
  - intros w' Hw.
    assert (Hcfg : with_debug (debug cfg) cfg = cfg) by (destruct cfg; reflexivity).
    pose proof (dispatch_alike cfg (debug cfg) (debug cfg) a w' w Hw) as [_ He].
    rewrite Hcfg in He. exact He.
Qed.


(** ** Events that are not for the hook, and timers *)

(** A storage event for another key (or for [clear()], whose key is null), a
    channel message of another type, [visibilitychange] on a visible page,
    a timeout with nothing pending. *)
Definition not_for_hook (cfg : Config) (w : World) (a : Part001.Action) : bool :=
  match a with
  | Part001.StorageEvent None => true
  | Part001.StorageEvent (Some k) => negb (String.eqb k (storageKey cfg))
  | Part001.ChannelMessage type => negb (String.eqb type "leadership-change")
  | Part001.VisibilityChange => negb (hidden w)
  | Part001.TimeoutFires => match timers w with [] => true | _ => false end
  | _ => false
  end.

Lemma commit_unchanged `{JsHost} (cfg : Config) (w : World) :
  Part001.commit cfg (isLeader (hook w)) w = (Ok tt, w).
Proof.
  unfold Part001.commit. cbv [mbind M_bind gets].
  rewrite Bool.eqb_reflx. reflexivity.
Qed.

Lemma log_forget (d : bool) (s : string) (w : World) :
  outcome (log d s) w = Ok tt /\
  forget_console (exec (log d s) w) = forget_console w /\
  hook (exec (log d s) w) = hook w.
Proof. destruct w, d; repeat split. Qed.

(** X6. The handlers of part_001 leave everything but the debug console as
    it is when the event is not for the hook: a storage event for another
    key or with a null key, a channel message whose type is not
    [leadership-change] (the [tab-closing] message that [cleanup] posts is
    one), a [visibilitychange] while the page is visible, a timeout with no
    timer pending. *)
Theorem foreign_events_are_ignored `{JsHost} (cfg : Config)
  (a : Part001.Action) (w : World) :
  not_for_hook cfg w a = true ->
  outcome (Part001.dispatch cfg a) w = Ok tt /\
  forget_console (exec (Part001.dispatch cfg a) w) = forget_console w.
Proof.
  intros Ha.
  assert (Hhandler : outcome (Part001.handler cfg a) w = Ok tt /\
                     forget_console (exec (Part001.handler cfg a) w)
                     = forget_console w /\
                     hook (exec (Part001.handler cfg a) w) = hook w).
  { destruct a as [| |[k|]|type| | |]; cbn in Ha; try discriminate;
      cbn [Part001.handler].
    - unfold Part001.handleStorageChange.
      destruct (String.eqb k (storageKey cfg)); [discriminate|].
      repeat split.
    - repeat split.
    - unfold Part001.handleMessage.
      destruct (String.eqb type "leadership-change"); [discriminate|].
      destruct (log_forget (debug cfg) "BroadcastChannel message received:" w)
        as (Ho & Hf & Hk).
      rewrite (outcome_bind _ _ w tt Ho), (exec_bind _ _ w tt Ho).
      repeat split; assumption.
    - unfold Part001.handleVisibilityChange.
      rewrite (outcome_bind _ _ w (hidden w)), (exec_bind _ _ w (hidden w))
        by reflexivity.
      destruct (hidden w); [discriminate|]. repeat split.
    - unfold Part001.fire_timeout.
      rewrite (outcome_bind _ _ w (timers w)), (exec_bind _ _ w (timers w))
        by reflexivity.
      destruct (timers w); [|discriminate]. repeat split. }
  destruct Hhandler as (Ho & Hf & Hk).
  unfold Part001.dispatch.
  rewrite (outcome_bind _ _ w (isLeader (hook w))),
    (exec_bind _ _ w (isLeader (hook w))) by reflexivity.
  change (exec (gets (fun w0 => isLeader (hook w0))) w) with w.
  rewrite (outcome_bind _ _ w tt Ho), (exec_bind _ _ w tt Ho).
  rewrite <- Hk. unfold outcome, exec. rewrite commit_unchanged.
  split; [reflexivity|exact Hf].
Qed.

(** A [tab-closing] message reaches follower A. *)
Lemma foreign_events_are_ignored_witness :
  let w := page (Some record_B) healthy 3000 follower_hook in
  forget_console
    (exec (@Part001.dispatch plain_host tab_A
             (Part001.ChannelMessage "tab-closing")) w)
  = forget_console w.
Proof.
  cbv zeta.
  apply (@foreign_events_are_ignored plain_host tab_A
           (Part001.ChannelMessage "tab-closing")
           (page (Some record_B) healthy 3000 follower_hook) eq_refl).
Defined.

Section Timers.
Context `{JsHost} (cfg : Config).

Lemma message_schedules (w : World) :
  forget_console
    (exec (Part001.dispatch cfg (Part001.ChannelMessage "leadership-change")) w)
  = forget_console (with_timers (fun l => l ++ [(CheckLeadership, 100)]) w).
Proof.
  unfold Part001.dispatch.
  rewrite (exec_bind _ _ w (isLeader (hook w))) by reflexivity.
  change (exec (gets (fun w0 => isLeader (hook w0))) w) with w.
  cbn [Part001.handler]. unfold Part001.handleMessage. cbn [String.eqb Ascii.eqb Bool.eqb].
  set (m := log (debug cfg) "BroadcastChannel message received:";;
            setTimeout CheckLeadership 100).
  assert (Hm : outcome m w = Ok tt /\
               forget_console (exec m w)
               = forget_console
                   (with_timers (fun l => l ++ [(CheckLeadership, 100)]) w) /\
               hook (exec m w) = hook w).
  { subst m. destruct w, (debug cfg); repeat split. }
  destruct Hm as (Ho & Hf & Hk).
  rewrite (exec_bind _ _ w tt Ho). rewrite <- Hk.
  unfold exec at 1. rewrite commit_unchanged. exact Hf.
Qed.

Lemma timeout_is_a_check (w : World) (t : Task) (d : Z) (rest : list (Task * Z)) :
  timers w = (t, d) :: rest ->
  Part001.dispatch cfg Part001.TimeoutFires w
  = Part001.dispatch cfg Part001.Check (with_timers (fun _ => rest) w).
Proof.
  intros Ht. destruct w as [it fa cl hi hk ti ca fi po co], t.
  cbn in Ht. subst ti.
  reflexivity.
Qed.

End Timers.

(** X7. In part_001 a channel message of type [leadership-change] changes
    nothing but the console and the timers, to which it adds one timeout of
    100 ms; and when a timeout comes due the hook does, with the render that
    follows, exactly what a tick of the interval does once the timeout is
    off the queue, the oldest timeout first. A message followed by its
    timeout is therefore a check, up to what is printed. *)
Theorem debounced_check_is_a_check `{JsHost} (cfg : Config) (w : World) :
  let message := Part001.ChannelMessage "leadership-change" in
  let w1 := exec (Part001.dispatch cfg message) w in
  forget_console w1
  = forget_console (with_timers (fun l => l ++ [(CheckLeadership, 100)]) w) /\
  match timers w with
  | [] =>
      forget_console (exec (Part001.dispatch cfg Part001.TimeoutFires) w1)
      = forget_console (exec (Part001.dispatch cfg Part001.Check) w)
  | (t, d) :: rest =>
      Part001.dispatch cfg Part001.TimeoutFires w
      = Part001.dispatch cfg Part001.Check (with_timers (fun _ => rest) w)
  end.
Proof.
  cbv zeta. split; [apply (message_schedules cfg w)|].
  destruct (timers w) as [|[t d] rest] eqn:Ht.
  - pose proof (message_schedules cfg w) as Hm.
    remember (exec (Part001.dispatch cfg
                      (Part001.ChannelMessage "leadership-change")) w) as w1
      eqn:Hw1.
    clear Hw1.
    assert (Ht1 : timers w1 = [(CheckLeadership, 100)]).
    { apply (f_equal timers) in Hm. destruct w1, w. cbn in *. subst. reflexivity. }
    unfold exec at 1. rewrite (timeout_is_a_check cfg w1 _ _ _ Ht1).
    assert (Hcfg : with_debug (debug cfg) cfg = cfg) by (destruct cfg; reflexivity).
    pose proof (dispatch_alike cfg (debug cfg) (debug cfg) Part001.Check
                  (with_timers (fun _ => []) w1) w) as Halike.
    rewrite Hcfg in Halike. apply Halike.
    unfold agree. destruct w1, w. cbn in *. inversion Hm; subst. reflexivity.
  - apply (timeout_is_a_check cfg w t d rest Ht).
Qed.


(** ** Two tabs on one store *)

(** The world as another tab finds it: the same store, clock and faults,
    and the state of its own hook. *)
Definition seen_by (h : Hook) (w : World) : World := with_hook (fun _ => h) w.

(** Tab B of the same application. *)
Definition tab_B : Config :=
  {| tabId := "tab-B"; storageKey := "single-tab-my-app"; timeout := 5000;
     interval := 10000; debug := false; channel := true |}.

(** ** The store after a render *)

Section Part001_renders.
Context `{JsHost} (cfg : Config).

Lemma leaderStateEffect_items (w : World) :
  items (exec (Part001.leaderStateEffect cfg) w) = items w /\
  faults (exec (Part001.leaderStateEffect cfg) w) = faults w /\
  clock (exec (Part001.leaderStateEffect cfg) w) = clock w.
Proof.
  destruct w as [it fa cl hi [l n c p] ti ca fi po co].
  run_m. destruct (debug cfg), l, p; repeat split.
Qed.

(** A handler and its render: the state is the one the handler left, and
    the store is the one the handler left unless [isLeader] changed and the
    record read back is the tab's own, which is then removed. *)
Lemma dispatch_store (a : Part001.Action) (w : World) :
  let w1 := exec (Part001.handler cfg a) w in
  let w' := exec (Part001.dispatch cfg a) w in
  isLeader (hook w') = isLeader (hook w1) /\
  items w' =
    (if negb (Bool.eqb (isLeader (hook w)) (isLeader (hook w1)))
        && owned_by (tabId cfg) (read_record cfg w1)
        && negb (removeItem_throws (faults w1))
     then delete (storageKey cfg) (items w1)
     else items w1) /\
  faults w' = faults w1 /\ clock w' = clock w1.
Proof.
  cbv zeta. unfold Part001.dispatch.
  rewrite (exec_bind _ _ w (isLeader (hook w))) by reflexivity.
  change (exec (gets (fun w0 => isLeader (hook w0))) w) with w.
  destruct (handler_returns cfg a w) as [[] Hret].
  rewrite (exec_bind _ _ w tt Hret).
  set (w1 := exec (Part001.handler cfg a) w).
  split; [apply (commit_same_state cfg (isLeader (hook w)) w1)|].
  unfold Part001.commit.
  rewrite (exec_bind _ _ w1 (isLeader (hook w1))) by reflexivity.
  change (exec (gets (fun w0 => isLeader (hook w0))) w1) with w1.
  destruct (Bool.eqb (isLeader (hook w)) (isLeader (hook w1))); cbn [negb andb].
  - repeat split.
  - destruct (cleanup_returns cfg w1) as [[] Hc].
    rewrite (exec_bind _ _ w1 tt Hc).
    destruct (leaderStateEffect_items (exec (Part001.cleanup cfg) w1))
      as (-> & -> & ->).
    destruct w1 as [it [g s r] cl hi [l n c p] ti ca fi po co].
    unfold owned_by, read_record. destruct cfg as [tab key tmo itv dbg chan].
    destruct dbg, chan, g, r; run_m; run_cfg; js_simpl.
    all: try (destruct (it !! key) as [[[|c0 s0]|v]|]; run_m; js_simpl).
    all: try (destruct (truthy v), (strict_eq_str (get_prop v "id") tab);
              run_m; js_simpl).
    all: repeat split; reflexivity.
Qed.

Lemma handler_store_cases (a : Part001.Action) (w : World) :
  let w1 := exec (Part001.handler cfg a) w in
  faults w1 = faults w /\ clock w1 = clock w /\
  ((isLeader (hook w1) = isLeader (hook w)) \/
   (exists d,
      d = code_decision (read_record cfg w) (tabId cfg) (clock w) (timeout cfg) /\
      isLeader (hook w1) = leads d /\
      items w1 = (if leads d && negb (setItem_throws (faults w))
                  then <[storageKey cfg := own_record cfg (clock w)]> (items w)
                  else items w)) \/
   (isLeader (hook w1) = true /\
    items w1 = (if setItem_throws (faults w) then items w
                else <[storageKey cfg := own_record cfg (clock w)]> (items w)))).
Proof.
  cbv zeta. destruct a as [| |key|type| | |]; cbn [Part001.handler].
  - destruct (checkLeadership_run cfg w)
      as (_ & Hk & _ & Hi & _ & Hfa & Hcl & _). cbv zeta in *.
    split; [exact Hfa|]. split; [exact Hcl|].
    right. left. eexists. split; [reflexivity|].
    split; [rewrite Hk; reflexivity|exact Hi].
  - destruct (forceLeadership_run cfg w) as (_ & Hk & _ & Hi & _).
    cbv zeta in *.
    assert (Hf : faults (exec (Part001.forceLeadership cfg) w) = faults w /\
                 clock (exec (Part001.forceLeadership cfg) w) = clock w).
    { destruct w as [it [g s r] cl hi hk ti ca fi po co].
      destruct (debug cfg) eqn:Hd, s; run_m; rewrite ?Hd; split; reflexivity. }
    split; [apply Hf|]. split; [apply Hf|].
    right. right. split; [rewrite Hk; reflexivity|exact Hi].
  - destruct key as [k|]; cbn [Part001.handleStorageChange];
      [|split; [reflexivity|split; [reflexivity|left; reflexivity]]].
    unfold Part001.handleStorageChange.
    destruct (String.eqb k (storageKey cfg));
      [|split; [reflexivity|split; [reflexivity|left; reflexivity]]].
    destruct (log_forget (debug cfg) "Storage change detected for key:" w)
      as (Ho & Hf & Hk0).
    rewrite (exec_bind _ _ w tt Ho).
    set (w2 := exec (log (debug cfg) "Storage change detected for key:") w) in *.
    assert (Hw2 : items w2 = items w /\ faults w2 = faults w /\ clock w2 = clock w).
    { apply (f_equal items) in Hf as Hfi. apply (f_equal faults) in Hf as Hff.
      apply (f_equal clock) in Hf as Hfc.
      destruct w2, w; cbn in *. auto. }
    destruct Hw2 as (Hi2 & Hfa2 & Hcl2).
    destruct (checkLeadership_run cfg w2)
      as (_ & Hk & _ & Hi & _ & Hfa & Hcl & _). cbv zeta in *.
    rewrite (read_record_ext cfg w2 w Hi2 Hfa2), Hcl2, Hfa2, Hi2 in *.
    split; [exact Hfa|]. split; [exact Hcl|].
    right. left. eexists. split; [reflexivity|].
    split; [rewrite Hk; reflexivity|exact Hi].
  - assert (Hm : faults (exec (Part001.handleMessage cfg type) w) = faults w /\
                 clock (exec (Part001.handleMessage cfg type) w) = clock w /\
                 hook (exec (Part001.handleMessage cfg type) w) = hook w).
    { destruct w. unfold Part001.handleMessage.
      destruct (debug cfg) eqn:Hd, (String.eqb type "leadership-change");
        run_m; rewrite ?Hd; repeat split. }
    destruct Hm as (Hfa & Hcl & Hk).
    split; [exact Hfa|]. split; [exact Hcl|]. left. rewrite Hk. reflexivity.
  - destruct (handleVisibilityChange_run cfg w) as (_ & Hk & _).
    cbv zeta in Hk.
    assert (Hf : faults (exec (Part001.handleVisibilityChange cfg) w) = faults w /\
                 clock (exec (Part001.handleVisibilityChange cfg) w) = clock w).
    { destruct w as [it [g s r] cl hi [l n c p] ti ca fi po co].
      destruct (debug cfg) eqn:Hd, hi, l, s; run_m; rewrite ?Hd; split; reflexivity. }
    split; [apply Hf|]. split; [apply Hf|]. left. rewrite Hk. reflexivity.
  - destruct (cleanup_run cfg w) as (_ & Hk & _). cbv zeta in Hk.
    unfold Part001.handleBeforeUnload.
    assert (Hf : faults (exec (Part001.cleanup cfg) w) = faults w /\
                 clock (exec (Part001.cleanup cfg) w) = clock w).
    { destruct w as [it [g s r] cl hi [l n c p] ti ca fi po co].
      unfold owned_by, read_record. destruct cfg as [tab key tmo itv dbg chan].
      destruct dbg, chan, g, r; run_m; run_cfg; js_simpl.
      all: try (destruct (it !! key) as [[[|c0 s0]|v]|]; run_m; js_simpl).
      all: try (destruct (truthy v), (strict_eq_str (get_prop v "id") tab);
                run_m; js_simpl).
      all: split; reflexivity. }
    split; [apply Hf|]. split; [apply Hf|]. left. rewrite Hk. reflexivity.
  - unfold Part001.fire_timeout.
    rewrite (exec_bind _ _ w (timers w)) by reflexivity.
    change (exec (gets timers) w) with w.
    destruct (timers w) as [|[[] d] rest];
      [split; [reflexivity|split; [reflexivity|left; reflexivity]]|].
    rewrite (exec_bind _ _ w tt) by reflexivity.
    cbn [Part001.run_task].
    set (w2 := exec (modify (with_timers (fun _ => rest))) w).
    assert (Hw2 : items w2 = items w /\ faults w2 = faults w /\ clock w2 = clock w)
      by (subst w2; destruct w; repeat split).
    destruct Hw2 as (Hi2 & Hfa2 & Hcl2).
    destruct (checkLeadership_run cfg w2)
      as (_ & Hk & _ & Hi & _ & Hfa & Hcl & _). cbv zeta in *.
    rewrite (read_record_ext cfg w2 w Hi2 Hfa2), Hcl2, Hfa2, Hi2 in *.
    split; [exact Hfa|]. split; [exact Hcl|].
    right. left. eexists. split; [reflexivity|].
    split; [rewrite Hk; reflexivity|exact Hi].
Qed.

End Part001_renders.


Section Part001_lead_changes.
Context `{JsHost} (cfg : Config).

Lemma owned_by_own_record (now : Z) (w : World) :
  getItem_throws (faults w) = false ->
  items w !! storageKey cfg = Some (own_record cfg now) ->
  owned_by (tabId cfg) (read_record cfg w) = true.
Proof.
  intros Hg Hi. unfold read_record, owned_by, own_record, JSON_stringify in *.
  rewrite Hg, Hi. cbn. apply String.eqb_refl.
Qed.

Lemma follower_decision_is_foreign (record : JsValue) (now : Z) :
  leads (code_decision record (tabId cfg) now (timeout cfg)) = false ->
  owned_by (tabId cfg) record = false.
Proof.
  unfold code_decision, owned_by.
  destruct (truthy record); cbn [negb andb]; [|reflexivity].
  destruct (minus_gt _ _ _); [discriminate|].
  destruct (strict_eq_str _ _); [discriminate|reflexivity].
Qed.

End Part001_lead_changes.

(** ** Two tabs on one store, with their renders *)

Section Two_tabs.
Context `{JsHost}.

Lemma dispatch_same_state (cfg : Config) (a : Part001.Action) (w : World) :
  same_state (exec (Part001.handler cfg a) w) (exec (Part001.dispatch cfg a) w).
Proof.
  unfold Part001.dispatch.
  rewrite (exec_bind _ _ w (isLeader (hook w))) by reflexivity.
  change (exec (gets (fun w0 => isLeader (hook w0))) w) with w.
  destruct (handler_returns cfg a w) as [[] Hret].
  rewrite (exec_bind _ _ w tt Hret).
  apply commit_same_state.
Qed.

End Two_tabs.

(** X8. Two tabs of part_001 on the same key, each check with the render
    that follows it, on a store whose [getItem] and [setItem] work. Tab A
    leads and stays leader at its check: no render follows, and the record
    it wrote at its reading [clock w] of the clock stays in the store. A
    check of B at a reading [now] with [now - clock w <= timeout] then
    makes B a follower, whatever B believed before, and neither the check
    nor the render after it touches the record of A. Both checks are
    assumed to compute what JavaScript computes ([exact_check]). *)
Theorem live_lease_excludes_other_tabs `{JsHost} (A B : Config) (w : World)
  (hB : Hook) (now : Z) :
  storageKey A = storageKey B ->
  tabId A <> tabId B ->
  getItem_throws (faults w) = false ->
  setItem_throws (faults w) = false ->
  exact_check A w = true ->
  isLeader (hook w) = true ->
  let wA := exec (Part001.dispatch A Part001.Check) w in
  isLeader (hook wA) = true ->
  now - clock w <= timeout B ->
  let w0 := seen_by hB (with_clock (fun _ => now) wA) in
  exact_check B w0 = true ->
  let wB := exec (Part001.dispatch B Part001.Check) w0 in
  items wA !! storageKey A = Some (own_record A (clock w)) /\
  isLeader (hook wB) = false /\
  tabCount (hook wB) = 2 /\
  items wB = items wA.
Proof.
  intros Hkey Hid Hg Hs _ HlA. cbv zeta. intros HlA' Hnow _.
  (* tab A *)
  destruct (dispatch_store A Part001.Check w) as (Hl & Hi & Hfa & Hcl).
  cbv zeta in *. cbn [Part001.handler] in *.
  destruct (checkLeadership_run A w) as (_ & Hk1 & _ & Hi1 & _ & Hfa1 & _).
  cbv zeta in *.
  rewrite Hl in HlA'. rewrite HlA, HlA' in Hi. cbn [Bool.eqb negb andb] in Hi.
  rewrite Hk1 in HlA'. cbn [isLeader] in HlA'.
  rewrite HlA', Hs in Hi1. cbn [andb negb] in Hi1.
  set (wA := exec (Part001.dispatch A Part001.Check) w) in *.
  assert (HiA : items wA !! storageKey A = Some (own_record A (clock w)))
    by (rewrite Hi, Hi1; apply lookup_insert_eq).
  (* tab B *)
  set (w0 := seen_by hB (with_clock (fun _ => now) wA)).
  assert (Hw0 : items w0 = items wA /\ faults w0 = faults wA /\ clock w0 = now)
    by (subst w0; destruct wA; repeat split).
  destruct Hw0 as (Hi0 & Hfa0 & Hcl0).
  assert (Hg0 : getItem_throws (faults w0) = false)
    by (rewrite Hfa0, Hfa, Hfa1; exact Hg).
  assert (Hd : code_decision (read_record B w0) (tabId B) (clock w0) (timeout B)
               = Follower).
  { apply (live_foreign_record B {| id := tabId A; timestamp := clock w |}).
    - exact Hg0.
    - rewrite Hi0, <- Hkey. exact HiA.
    - exact Hid.
    - rewrite Hcl0. exact Hnow. }
  destruct (dispatch_store B Part001.Check w0) as (HlB & HiB & _).
  destruct (dispatch_same_state B Part001.Check w0) as (_ & HnB & _).
  cbv zeta in *. cbn [Part001.handler] in *.
  destruct (checkLeadership_run B w0) as (_ & HkB & _ & HiB1 & _ & HfaB1 & _).
  cbv zeta in *. rewrite Hd in HkB, HiB1. cbn [leads andb] in HkB, HiB1.
  split; [exact HiA|]. split; [rewrite HlB, HkB; reflexivity|].
  split; [rewrite HnB, HkB; reflexivity|].
  rewrite HiB.
  rewrite (read_record_ext B _ w0 HiB1 HfaB1).
  rewrite (follower_decision_is_foreign B (read_record B w0) (clock w0))
    by (rewrite Hd; reflexivity).
  rewrite andb_false_r. cbn [andb]. rewrite HiB1. exact Hi0.
Qed.

(** A, leader, renews at 1000; B, who believed it led, checks at 4000 and
    steps down; the render of B runs [cleanup] and leaves the record of A. *)
Lemma live_lease_excludes_other_tabs_witness :
  let w := page (Some (own_record tab_A 0)) healthy 1000 leader_hook in
  let wA := exec (@Part001.dispatch plain_host tab_A Part001.Check) w in
  let wB := exec (@Part001.dispatch plain_host tab_B Part001.Check)
              (seen_by leader_hook (with_clock (fun _ => 4000) wA)) in
  isLeader (hook wB) = false /\
  items wB !! "single-tab-my-app" = Some (own_record tab_A 1000).
Proof.
  cbv zeta.
  assert (Hid : tabId tab_A <> tabId tab_B) by discriminate.
  assert (Hnow : 4000 - 1000 <= timeout tab_B) by (cbn; lia).
  destruct (@live_lease_excludes_other_tabs plain_host tab_A tab_B
              (page (Some (own_record tab_A 0)) healthy 1000 leader_hook)
              leader_hook 4000 eq_refl Hid eq_refl eq_refl eq_refl eq_refl
              eq_refl Hnow eq_refl)
    as (HiA & Hl & _ & Hi).
  split; [exact Hl|]. rewrite Hi. exact HiA.
Defined.

(** X10. part_001, any handler followed by its render, whatever the store
    does: when the handler turns the leader into a follower, the store is
    left as it was. The check that found the other tab wrote nothing, and
    the destructor of the last effect reads a record that is not the
    tab's own. *)
Theorem losing_leadership_keeps_the_store `{JsHost} (cfg : Config)
  (a : Part001.Action) (w : World) :
  isLeader (hook w) = true ->
  let w' := exec (Part001.dispatch cfg a) w in
  isLeader (hook w') = false ->
  items w' = items w.
Proof.
  intros Hleader w' Hfollower. subst w'.
  destruct (dispatch_store cfg a w) as (Hl & Hi & _).
  destruct (handler_store_cases cfg a w) as (Hf1 & _ & Hcases).
  cbv zeta in *. rewrite Hl in Hfollower. rewrite Hi.
  destruct Hcases as [Hsame | [(d & Hd & Hld & Hit) | (Htrue & _)]];
    [congruence | | congruence].
  rewrite Hfollower in Hld. symmetry in Hld.
  rewrite Hld in Hit. cbn [andb] in Hit.
  rewrite (read_record_ext cfg _ w Hit Hf1).
  rewrite (follower_decision_is_foreign cfg (read_record cfg w) (clock w))
    by (rewrite <- Hd; exact Hld).
  rewrite andb_false_r. cbn [andb]. exact Hit.
Qed.

Lemma losing_leadership_keeps_the_store_witness :
  let w := page (Some record_B) healthy 3000 leader_hook in
  let w' := exec (@Part001.dispatch plain_host tab_A Part001.Check) w in
  isLeader (hook w') = false /\ items w' = items w.
Proof.
  split; [reflexivity|].
  apply (@losing_leadership_keeps_the_store plain_host tab_A Part001.Check
           (page (Some record_B) healthy 3000 leader_hook));
    reflexivity.
Defined.


(** ** Tabs opened one after another *)

Section Part001_first_render.
Context `{JsHost} (cfg : Config).

(** The first render on a working store: the tab leads when the rule of the
    check says so, and in that case the record is gone after the render. *)
Lemma mounted_store (it : gmap string StorageValue) (now : Z)
  (is_hidden : bool) :
  let w0 := initial it healthy now is_hidden in
  let w := mounted cfg it healthy now is_hidden in
  let d := code_decision (read_record cfg w0) (tabId cfg) now (timeout cfg) in
  isLeader (hook w) = leads d /\
  items w = (if leads d then delete (storageKey cfg) it else it).
Proof.
  cbv zeta. unfold mounted, Part001.mount.
  set (w0 := initial it healthy now is_hidden).
  rewrite (exec_bind _ _ w0 false) by reflexivity.
  change (exec (gets (fun w1 => isLeader (hook w1))) w0) with w0.
  rewrite (exec_bind _ _ w0 tt)
    by (subst w0; run_m; destruct (debug cfg); reflexivity).
  destruct (leaderStateEffect_items cfg w0) as (Hi0 & Hf0 & Hc0).
  set (w1 := exec (Part001.leaderStateEffect cfg) w0) in *.
  assert (Hl1 : isLeader (hook w1) = false)
    by (subst w1 w0; run_m; destruct (debug cfg); reflexivity).
  pose proof (dispatch_store cfg Part001.Check w1) as Hd.
  cbv zeta in Hd. unfold Part001.dispatch in Hd.
  rewrite (exec_bind _ _ w1 false) in Hd by (rewrite <- Hl1; reflexivity).
  change (exec (gets (fun w1 => isLeader (hook w1))) w1) with w1 in Hd.
  cbn [Part001.handler] in Hd.
  destruct Hd as (Hl & Hi & _).
  destruct (checkLeadership_run cfg w1)
    as (_ & Hk & _ & Hit & _ & Hfa & _). cbv zeta in *.
  rewrite (read_record_ext cfg w1 w0 Hi0 Hf0), Hc0, Hf0, Hi0 in *.
  change (clock w0) with now in *. change (faults w0) with healthy in *.
  change (items w0) with it in *. cbn [healthy setItem_throws negb] in Hit.
  rewrite andb_true_r in Hit.
  rewrite Hl, Hi, Hk, Hl1, Hfa. cbn [isLeader healthy removeItem_throws negb].
  split; [reflexivity|]. rewrite andb_true_r.
  destruct (leads _) eqn:Hd; cbn [Bool.eqb negb andb].
  - rewrite (owned_by_own_record cfg now);
      [| rewrite Hfa; reflexivity | rewrite Hit; apply lookup_insert_eq ].
    rewrite Hit. apply delete_insert_eq.
  - exact Hit.
Qed.

End Part001_first_render.

(** ** Renders when the callbacks are new functions *)

(** A render that shows what the render before showed does nothing. *)
Lemma react_renders_at_rest `{JsHost} (cfg : Config) (stable : bool)
  (fuel : nat) (w : World) :
  Part001_react.renders cfg stable fuel (Part001_react.shown w) w
  = (Ok true, w).
Proof.
  destruct w as [it fa cl hi [l n c p] ti ca fi po co].
  destruct fuel; cbn [Part001_react.renders]; cbv [mbind M_bind gets];
    cbn [Part001_react.shown Part001_react.same_shown hook isLeader tabCount
         isChecking];
    rewrite !Bool.eqb_reflx, Z.eqb_refl; reflexivity.
Qed.

Section Part001_react_facts.
Context `{JsHost} (cfg : Config).

Lemma leaderStateEffect_returns (w : World) :
  outcome (Part001.leaderStateEffect cfg) w = Ok tt.
Proof.
  destruct w as [it fa cl hi [l n c p] ti ca fi po co].
  run_m. destruct (debug cfg), l, p; reflexivity.
Qed.

(** With callbacks that keep their identity the renders are the one render
    of [Part001.commit]. *)
Lemma stable_renders (fuel : nat) (rendered : bool * Z * bool) (w : World) :
  outcome (Part001_react.renders cfg true fuel rendered) w = Ok true /\
  exec (Part001_react.renders cfg true fuel rendered) w
  = exec (Part001.commit cfg (fst (fst rendered))) w.
Proof.
  assert (Hm : Part001_react.renders cfg true fuel rendered
               = (current ← gets Part001_react.shown;
                  if Part001_react.same_shown rendered current then mret true
                  else
                    (if negb (Bool.eqb (fst (fst rendered)) (fst (fst current)))
                     then Part001.cleanup cfg;; Part001.leaderStateEffect cfg
                     else mret tt);;
                    mret true))
    by (destruct fuel; reflexivity).
  rewrite Hm. clear Hm. unfold Part001.commit.
  rewrite (outcome_bind _ _ w (Part001_react.shown w)),
    (exec_bind _ _ w (Part001_react.shown w)) by reflexivity.
  rewrite (exec_bind _ _ w (isLeader (hook w))) by reflexivity.
  change (exec (gets Part001_react.shown) w) with w.
  change (exec (gets (fun w0 => isLeader (hook w0))) w) with w.
  destruct rendered as [[l n] c]. cbn [fst].
  destruct w as [it fa cl hi [l' n' c' p] ti ca fi po co].
  cbn [Part001_react.shown Part001_react.same_shown hook isLeader tabCount
       isChecking fst].
  destruct (Bool.eqb l l') eqn:Hl; cbn [andb negb].
  - destruct ((n =? n') && Bool.eqb c c'); split; reflexivity.
  - set (w := {| items := it; faults := fa; clock := cl; hidden := hi;
                 hook := {| isLeader := l'; tabCount := n'; isChecking := c';
                            previousLeaderState := p |};
                 timers := ti; calls := ca; fired := fi; posted := po;
                 console := co |}).
    destruct (cleanup_returns cfg w) as [[] Hc].
    pose proof (leaderStateEffect_returns (exec (Part001.cleanup cfg) w)) as He.
    assert (Hboth : outcome (Part001.cleanup cfg;; Part001.leaderStateEffect cfg) w
                    = Ok tt)
      by (rewrite (outcome_bind _ _ w tt Hc); exact He).
    rewrite (outcome_bind _ _ w tt Hboth), (exec_bind _ _ w tt Hboth).
    split; reflexivity.
Qed.

Lemma stable_dispatch (fuel : nat) (a : Part001.Action) (w : World) :
  outcome (Part001_react.dispatch cfg true fuel a) w = Ok true /\
  exec (Part001_react.dispatch cfg true fuel a) w
  = exec (Part001.dispatch cfg a) w.
Proof.
  unfold Part001_react.dispatch, Part001.dispatch.
  rewrite (outcome_bind _ _ w (Part001_react.shown w)),
    (exec_bind _ _ w (Part001_react.shown w)) by reflexivity.
  rewrite (exec_bind _ _ w (isLeader (hook w))) by reflexivity.
  change (exec (gets Part001_react.shown) w) with w.
  change (exec (gets (fun w0 => isLeader (hook w0))) w) with w.
  destruct (handler_returns cfg a w) as [[] Hret].
  rewrite (outcome_bind _ _ w tt Hret), !(exec_bind _ _ w tt Hret).
  apply stable_renders.
Qed.

Lemma stable_mount (fuel : nat) (w : World) :
  outcome (Part001_react.mount cfg true fuel) w = Ok true /\
  exec (Part001_react.mount cfg true fuel) w = exec (Part001.mount cfg) w.
Proof.
  unfold Part001_react.mount, Part001.mount.
  rewrite (outcome_bind _ _ w (Part001_react.shown w)),
    (exec_bind _ _ w (Part001_react.shown w)) by reflexivity.
  rewrite (exec_bind _ _ w (isLeader (hook w))) by reflexivity.
  change (exec (gets Part001_react.shown) w) with w.
  change (exec (gets (fun w0 => isLeader (hook w0))) w) with w.
  pose proof (leaderStateEffect_returns w) as He.
  rewrite (outcome_bind _ _ w tt He), !(exec_bind _ _ w tt He).
  set (w1 := exec (Part001.leaderStateEffect cfg) w).
  destruct (handler_returns cfg Part001.Check w1) as [[] Hret].
  cbn [Part001.handler] in Hret.
  rewrite (outcome_bind _ _ w1 tt Hret), !(exec_bind _ _ w1 tt Hret).
  apply stable_renders.
Qed.

Lemma cleanup_closed_run (w : World) :
  channel cfg = false ->
  outcome (Part001.cleanup_closed cfg) w = Ok tt /\
  exec (Part001.cleanup_closed cfg) w = exec (Part001.cleanup cfg) w.
Proof.
  intros Hchan.
  assert (Heq : Part001.cleanup_closed cfg = Part001.cleanup cfg)
    by (unfold Part001.cleanup_closed, Part001.cleanup; rewrite Hchan;
        reflexivity).
  rewrite Heq. split; [|reflexivity].
  destruct (cleanup_returns cfg w) as [[] Hc]. exact Hc.
Qed.

(** One render with callbacks that change. *)
Lemma unstable_render (fuel : nat) (rendered : bool * Z * bool) (w : World) :
  Part001_react.same_shown rendered (Part001_react.shown w) = false ->
  Part001_react.renders cfg false (S fuel) rendered w
  = ((if negb (Bool.eqb (fst (fst rendered)) (isLeader (hook w)))
      then Part001.cleanup_closed cfg else mret tt);;
     Part001.leaderStateEffect cfg;;
     Part001.checkLeadership cfg;;
     Part001_react.renders cfg false fuel (Part001_react.shown w)) w.
Proof.
  intros Hne. cbn [Part001_react.renders]. cbv [mbind M_bind gets].
  rewrite Hne. reflexivity.
Qed.

Lemma own_record_leads (w : World) (t : Z) :
  getItem_throws (faults w) = false ->
  items w !! storageKey cfg = Some (own_record cfg t) ->
  leads (code_decision (read_record cfg w) (tabId cfg) (clock w) (timeout cfg))
  = true.
Proof.
  intros Hg Hit. unfold read_record, own_record, code_decision in *.
  rewrite Hg, Hit. cbn.
  destruct (timeout cfg <? clock w - t); [reflexivity|].
  rewrite String.eqb_refl. reflexivity.
Qed.

Lemma no_record_leads (w : World) :
  items w !! storageKey cfg = None ->
  leads (code_decision (read_record cfg w) (tabId cfg) (clock w) (timeout cfg))
  = true.
Proof.
  intros Hit. unfold read_record, code_decision.
  rewrite Hit. destruct (getItem_throws (faults w)); reflexivity.
Qed.

(** The effect on [isLeader] and the check of the periodic effect, run
    again by a render, when the check decides to lead on a working store. *)
Lemma recheck_leads (w : World) :
  setItem_throws (faults w) = false ->
  leads (code_decision (read_record cfg w) (tabId cfg) (clock w) (timeout cfg))
  = true ->
  let w1 := exec (Part001.leaderStateEffect cfg) w in
  let w2 := exec (Part001.checkLeadership cfg) w1 in
  outcome (Part001.leaderStateEffect cfg) w = Ok tt /\
  outcome (Part001.checkLeadership cfg) w1 = Ok tt /\
  Part001_react.shown w2 = (true, 1, false) /\
  items w2 = <[storageKey cfg := own_record cfg (clock w)]> (items w) /\
  faults w2 = faults w /\ clock w2 = clock w.
Proof.
  intros Hs Hd. cbv zeta.
  pose proof (leaderStateEffect_returns w) as He.
  destruct (leaderStateEffect_items cfg w) as (Hi1 & Hf1 & Hc1).
  set (w1 := exec (Part001.leaderStateEffect cfg) w) in *.
  destruct (checkLeadership_run cfg w1)
    as (Ho & Hk & _ & Hi & _ & Hfa & Hcl & _). cbv zeta in *.
  rewrite (read_record_ext cfg w1 w Hi1 Hf1), Hc1, Hf1, Hi1, Hd, Hs in *.
  cbn [andb negb] in Hi.
  split; [exact He|]. split; [exact Ho|].
  split; [unfold Part001_react.shown; rewrite Hk; reflexivity|].
  split; [exact Hi|]. split; [exact Hfa|exact Hcl].
Qed.

(** With callbacks that change and no channel: the render after a change to
    leader removes the own record, and the check of the periodic effect,
    which runs again, writes it back. *)
Lemma unstable_renders_after_claim (fuel : nat) (rendered : bool * Z * bool)
  (w : World) (t : Z) :
  channel cfg = false ->
  faults w = healthy ->
  isLeader (hook w) = true ->
  fst (fst rendered) = false ->
  items w !! storageKey cfg = Some (own_record cfg t) ->
  let m := Part001_react.renders cfg false (S (S fuel)) rendered in
  outcome m w = Ok true /\
  isLeader (hook (exec m w)) = true /\
  items (exec m w) = <[storageKey cfg := own_record cfg (clock w)]> (items w).
Proof.
  intros Hchan Hf Hl Hr Hit. cbv zeta.
  assert (Hne : Part001_react.same_shown rendered (Part001_react.shown w)
                = false).
  { destruct rendered as [[l0 n0] c0]. cbn in Hr. subst l0.
    unfold Part001_react.shown. rewrite Hl. reflexivity. }
  unfold outcome at 1, exec at 1 2. rewrite (unstable_render _ _ _ Hne).
  rewrite Hr, Hl. cbn [Bool.eqb negb].
  set (rest := Part001_react.renders cfg false (S fuel) (Part001_react.shown w)).
  change (outcome (Part001.cleanup_closed cfg;;
                   Part001.leaderStateEffect cfg;;
                   Part001.checkLeadership cfg;; rest) w = Ok true /\
          isLeader (hook (exec (Part001.cleanup_closed cfg;;
                                Part001.leaderStateEffect cfg;;
                                Part001.checkLeadership cfg;; rest) w)) = true /\
          items (exec (Part001.cleanup_closed cfg;;
                       Part001.leaderStateEffect cfg;;
                       Part001.checkLeadership cfg;; rest) w)
          = <[storageKey cfg := own_record cfg (clock w)]> (items w)).
  destruct (cleanup_closed_run w Hchan) as [Hoc Hec].
  rewrite (outcome_bind _ _ w tt Hoc), !(exec_bind _ _ w tt Hoc), Hec.
  destruct (cleanup_run cfg w) as (_ & Hk2 & _ & Hi2 & _). cbv zeta in *.
  assert (Hfa2 : faults (exec (Part001.cleanup cfg) w) = healthy /\
                 clock (exec (Part001.cleanup cfg) w) = clock w).
  { destruct (handler_store_cases cfg Part001.BeforeUnload w) as (Ha & Hb & _).
    cbn [Part001.handler] in *. unfold Part001.handleBeforeUnload in *.
    rewrite <- Hf. split; assumption. }
  destruct Hfa2 as [Hfa2 Hcl2].
  rewrite (owned_by_own_record cfg t w) in Hi2
    by (try rewrite Hf; try reflexivity; exact Hit).
  rewrite Hf in Hi2. cbn [healthy removeItem_throws negb andb] in Hi2.
  set (w2 := exec (Part001.cleanup cfg) w) in *.
  assert (Hnone : items w2 !! storageKey cfg = None)
    by (rewrite Hi2; apply lookup_delete_eq).
  destruct (recheck_leads w2) as (Ho3 & Ho4 & Hs4 & Hi4 & Hfa4 & Hcl4);
    [rewrite Hfa2; reflexivity | apply no_record_leads, Hnone |].
  cbv zeta in *.
  rewrite (outcome_bind _ _ w2 tt Ho3), !(exec_bind _ _ w2 tt Ho3).
  set (w3 := exec (Part001.leaderStateEffect cfg) w2) in *.
  rewrite (outcome_bind _ _ w3 tt Ho4), !(exec_bind _ _ w3 tt Ho4).
  set (w4 := exec (Part001.checkLeadership cfg) w3) in *.
  assert (Hi4' : items w4 = <[storageKey cfg := own_record cfg (clock w)]> (items w))
    by (rewrite Hi4, Hi2, Hcl2; apply insert_delete_eq).
  subst rest.
  destruct (Part001_react.same_shown (Part001_react.shown w)
              (Part001_react.shown w4)) eqn:Hsame.
  - (* the state is the one of the render before: at rest *)
    assert (Hsh : Part001_react.shown w = Part001_react.shown w4).
    { destruct (Part001_react.shown w) as [[l1 n1] c1],
               (Part001_react.shown w4) as [[l2 n2] c2].
      cbn in Hsame. apply andb_prop in Hsame as [Hsame Hc].
      apply andb_prop in Hsame as [Hl' Hn].
      apply Bool.eqb_prop in Hl'. apply Bool.eqb_prop in Hc.
      apply Z.eqb_eq in Hn. subst. reflexivity. }
    rewrite Hsh. unfold outcome, exec. rewrite react_renders_at_rest.
    cbn [fst snd]. split; [reflexivity|].
    split; [|exact Hi4'].
    apply (f_equal (fun s => fst (fst s))) in Hs4. exact Hs4.
  - (* one more render: the check renews *)
    unfold outcome at 1, exec at 1 2. rewrite (unstable_render _ _ _ Hsame).
    assert (Hl4 : isLeader (hook w4) = true)
      by (apply (f_equal (fun s => fst (fst s))) in Hs4; exact Hs4).
    cbn [Part001_react.shown fst]. rewrite Hl, Hl4. cbn [Bool.eqb negb].
    set (rest := Part001_react.renders cfg false fuel (Part001_react.shown w4)).
    change (outcome (mret tt;; Part001.leaderStateEffect cfg;;
                     Part001.checkLeadership cfg;; rest) w4 = Ok true /\
            isLeader (hook (exec (mret tt;; Part001.leaderStateEffect cfg;;
                                  Part001.checkLeadership cfg;; rest) w4)) = true /\
            items (exec (mret tt;; Part001.leaderStateEffect cfg;;
                         Part001.checkLeadership cfg;; rest) w4)
            = <[storageKey cfg := own_record cfg (clock w)]> (items w)).
    rewrite (outcome_bind _ _ w4 tt), !(exec_bind _ _ w4 tt) by reflexivity.
    change (exec (mret tt) w4) with w4.
    destruct (recheck_leads w4) as (Ho5 & Ho6 & Hs6 & Hi6 & Hfa6 & Hcl6);
      [rewrite Hfa4, Hfa2; reflexivity
      | apply (own_record_leads w4 (clock w));
        [rewrite Hfa4, Hfa2; reflexivity
        | rewrite Hi4'; apply lookup_insert_eq ]
      |].
    cbv zeta in *.
    rewrite (outcome_bind _ _ w4 tt Ho5), !(exec_bind _ _ w4 tt Ho5).
    set (w5 := exec (Part001.leaderStateEffect cfg) w4) in *.
    rewrite (outcome_bind _ _ w5 tt Ho6), !(exec_bind _ _ w5 tt Ho6).
    set (w6 := exec (Part001.checkLeadership cfg) w5) in *.
    subst rest. rewrite Hs4, <- Hs6.
    unfold outcome, exec. rewrite react_renders_at_rest.
    cbn [fst snd]. split; [reflexivity|].
    split; [apply (f_equal (fun s => fst (fst s))) in Hs6; exact Hs6|].
    rewrite Hi6, Hi4', Hcl4, Hcl2. apply insert_insert_eq.
Qed.

End Part001_react_facts.

(** X1. The first render of part_001 on a working store that holds nothing
    under the key. The tab ends it as leader. With callbacks that keep their
    identity (the defaults) the store is left without a record: the check
    writes the record, [isLeader] changes, and the render that follows runs
    the destructor of the last effect, whose [cleanup] finds the own record
    and removes it. With callbacks that are new functions at every render
    (and no channel) the periodic effect runs again in that render, after
    the destructor, and its check writes the record back. *)
Theorem record_after_first_render `{JsHost} (cfg : Config) (stable : bool)
  (fuel : nat) (it : gmap string StorageValue) (now : Z) (is_hidden : bool) :
  it !! storageKey cfg = None ->
  stable || negb (channel cfg) = true ->
  let w0 := initial it healthy now is_hidden in
  let m := Part001_react.mount cfg stable (S (S fuel)) in
  outcome m w0 = Ok true /\
  isLeader (hook (exec m w0)) = true /\
  items (exec m w0) !! storageKey cfg
  = (if stable then None else Some (own_record cfg now)).
Proof.
  intros Hnone Hchan. cbv zeta.
  set (w0 := initial it healthy now is_hidden).
  assert (Hd : leads (code_decision (read_record cfg w0) (tabId cfg) now
                        (timeout cfg)) = true)
    by (apply (no_record_leads cfg w0), Hnone).
  destruct stable.
  - destruct (stable_mount cfg (S (S fuel)) w0) as [Ho He].
    destruct (mounted_store cfg it now is_hidden) as [Hl Hi].
    cbv zeta in *. fold w0 in Hl, Hi. unfold mounted in Hl, Hi. fold w0 in Hl, Hi.
    rewrite Hd in Hl, Hi. rewrite He.
    split; [exact Ho|]. split; [exact Hl|].
    rewrite Hi. apply lookup_delete_eq.
  - cbn [orb negb] in Hchan. apply negb_true_iff in Hchan.
    unfold Part001_react.mount.
    rewrite (outcome_bind _ _ w0 (Part001_react.shown w0)),
      !(exec_bind _ _ w0 (Part001_react.shown w0)) by reflexivity.
    change (exec (gets Part001_react.shown) w0) with w0.
    destruct (recheck_leads cfg w0) as (Ho1 & Ho2 & Hs2 & Hi2 & Hfa2 & Hcl2);
      [reflexivity | exact Hd |].
    cbv zeta in *.
    rewrite (outcome_bind _ _ w0 tt Ho1), !(exec_bind _ _ w0 tt Ho1).
    set (w1 := exec (Part001.leaderStateEffect cfg) w0) in *.
    rewrite (outcome_bind _ _ w1 tt Ho2), !(exec_bind _ _ w1 tt Ho2).
    set (w2 := exec (Part001.checkLeadership cfg) w1) in *.
    destruct (unstable_renders_after_claim cfg fuel (Part001_react.shown w0)
                w2 now Hchan)
      as (Ho & Hl & Hi).
    + exact Hfa2.
    + apply (f_equal (fun s => fst (fst s))) in Hs2. exact Hs2.
    + reflexivity.
    + rewrite Hi2. apply lookup_insert_eq.
    + cbv zeta in *. split; [exact Ho|]. split; [exact Hl|].
      rewrite Hi, Hcl2. apply lookup_insert_eq.
Qed.

(** The two cases on an empty store at 3000: tab A with the default
    callbacks, and a tab without channel whose callbacks are written
    inline. *)
Lemma record_after_first_render_witness :
  let w0 := initial ∅ healthy 3000 false in
  items (exec (@Part001_react.mount plain_host tab_A true 2) w0)
    !! "single-tab-my-app" = None /\
  items (exec (@Part001_react.mount plain_host other_app false 2) w0)
    !! "single-tab-other-app" = Some (own_record other_app 3000).
Proof.
  cbv zeta. split.
  - destruct (@record_after_first_render plain_host tab_A true 0 ∅ 3000 false
                (lookup_empty _) eq_refl) as (_ & _ & Hi).
    exact Hi.
  - destruct (@record_after_first_render plain_host other_app false 0 ∅ 3000
                false (lookup_empty _) eq_refl) as (_ & _ & Hi).
    exact Hi.
Defined.

(** X9. part_001, any handler and the renders that follow it, on a store
    whose three calls work. When the handler turns a follower into the
    leader, the tab is leader once the renders are done. With callbacks that
    keep their identity the store then holds nothing under the key: the
    record the handler wrote is the tab's own, and the destructor of the
    last effect removes it. With callbacks that are new functions at every
    render (and no channel) the check of the periodic effect, run again
    after the destructor, writes the record back. *)
Theorem record_after_becoming_leader `{JsHost} (cfg : Config) (stable : bool)
  (fuel : nat) (a : Part001.Action) (w : World) :
  faults w = healthy ->
  isLeader (hook w) = false ->
  stable || negb (channel cfg) = true ->
  isLeader (hook (exec (Part001.handler cfg a) w)) = true ->
  let m := Part001_react.dispatch cfg stable (S (S fuel)) a in
  outcome m w = Ok true /\
  isLeader (hook (exec m w)) = true /\
  items (exec m w) !! storageKey cfg
  = (if stable then None else Some (own_record cfg (clock w))).
Proof.
  intros Hf Hfollower Hchan Hleader. cbv zeta.
  destruct (handler_store_cases cfg a w) as (Hf1 & Hc1 & Hcases).
  cbv zeta in *.
  assert (Hown : items (exec (Part001.handler cfg a) w)
                 = <[storageKey cfg := own_record cfg (clock w)]> (items w)).
  { destruct Hcases as [Hsame | [(d & _ & Hd & Hit) | (_ & Hit)]].
    - congruence.
    - rewrite Hit, <- Hd, Hleader, Hf. reflexivity.
    - rewrite Hit, Hf. reflexivity. }
  destruct stable.
  - destruct (stable_dispatch cfg (S (S fuel)) a w) as [Ho He].
    destruct (dispatch_store cfg a w) as (Hl & Hi & _). cbv zeta in *.
    rewrite He. split; [exact Ho|]. split; [rewrite Hl; exact Hleader|].
    rewrite Hi, Hf1, Hf, Hfollower, Hleader.
    rewrite (owned_by_own_record cfg (clock w));
      [| rewrite Hf1, Hf; reflexivity
       | rewrite Hown; apply lookup_insert_eq ].
    cbn. apply lookup_delete_eq.
  - cbn [orb negb] in Hchan. apply negb_true_iff in Hchan.
    unfold Part001_react.dispatch.
    rewrite (outcome_bind _ _ w (Part001_react.shown w)),
      !(exec_bind _ _ w (Part001_react.shown w)) by reflexivity.
    change (exec (gets Part001_react.shown) w) with w.
    destruct (handler_returns cfg a w) as [[] Hret].
    rewrite (outcome_bind _ _ w tt Hret), !(exec_bind _ _ w tt Hret).
    set (w1 := exec (Part001.handler cfg a) w) in *.
    destruct (unstable_renders_after_claim cfg fuel (Part001_react.shown w)
                w1 (clock w) Hchan)
      as (Ho & Hl & Hi).
    + rewrite Hf1. exact Hf.
    + exact Hleader.
    + exact Hfollower.
    + rewrite Hown. apply lookup_insert_eq.
    + cbv zeta in *. split; [exact Ho|]. split; [exact Hl|].
      rewrite Hi, Hc1. apply lookup_insert_eq.
Qed.

(** Follower A forces the lead at 6000 against the record of B. *)
Lemma record_after_becoming_leader_witness :
  let w := page (Some record_B) healthy 6000 follower_hook in
  let m := @Part001_react.dispatch plain_host tab_A true 2 Part001.Force in
  items w !! "single-tab-my-app" = Some record_B /\
  isLeader (hook (exec m w)) = true /\
  items (exec m w) !! "single-tab-my-app" = None.
Proof.
  cbv zeta. split; [reflexivity|].
  destruct (@record_after_becoming_leader plain_host tab_A true 0
              Part001.Force
              (page (Some record_B) healthy 6000 follower_hook)
              eq_refl eq_refl eq_refl eq_refl) as (_ & Hl & Hi).
  split; [exact Hl|exact Hi].
Defined.

(** The first renders of tabs opened one after another on the same store,
    each at its own time, none of them checking again in between. *)
Fixpoint open_tabs `{JsHost} (stable : bool) (fuel : nat)
  (tabs : list (Config * Z)) (it : gmap string StorageValue) : list World :=
  match tabs with
  | [] => []
  | (cfg, now) :: rest =>
      let w := exec (Part001_react.mount cfg stable fuel)
                 (initial it healthy now false) in
      w :: open_tabs stable fuel rest (items w)
  end.

(** X11. part_001 with callbacks that keep their identity (the defaults):
    tabs of one application opened one after another on a working store
    that holds no record, before any of them checks a second time. Every
    one of them ends its first render as leader, and none leaves a record
    for the next to find. *)
Theorem tabs_opened_together_all_lead `{JsHost} (key : string) (fuel : nat)
  (tabs : list (Config * Z)) (it : gmap string StorageValue) :
  it !! key = None ->
  Forall (fun t => storageKey (fst t) = key) tabs ->
  Forall (fun w => isLeader (hook w) = true /\ items w !! key = None)
    (open_tabs true fuel tabs it).
Proof.
  intros Hnone Hkeys. revert it Hnone.
  induction Hkeys as [|[cfg now] rest Hkey _ IH]; intros it Hnone;
    cbn [open_tabs]; [constructor|].
  cbn [fst] in Hkey.
  destruct (stable_mount cfg fuel (initial it healthy now false)) as [_ He].
  rewrite He.
  destruct (mounted_store cfg it now false) as (Hl & Hi). cbv zeta in *.
  unfold mounted in Hl, Hi.
  assert (Hd : leads (code_decision
                        (read_record cfg (initial it healthy now false))
                        (tabId cfg) now (timeout cfg)) = true).
  { apply (no_record_leads cfg (initial it healthy now false)).
    rewrite Hkey. exact Hnone. }
  rewrite Hd in Hl, Hi.
  assert (Hgone : items (exec (Part001.mount cfg)
                           (initial it healthy now false)) !! key = None)
    by (rewrite Hi, Hkey; apply lookup_delete_eq).
  constructor; [split; assumption|].
  apply IH. exact Hgone.
Qed.

Lemma tabs_opened_together_all_lead_witness :
  Forall (fun w => isLeader (hook w) = true /\
                   items w !! "single-tab-my-app" = None)
    (@open_tabs plain_host true 2 [(tab_A, 1000); (tab_B, 1500)] ∅).
Proof.
  assert (Hkeys : Forall (fun t : Config * Z =>
                            storageKey (fst t) = "single-tab-my-app")
                    [(tab_A, 1000); (tab_B, 1500)])
    by (repeat constructor).
  exact (@tabs_opened_together_all_lead plain_host "single-tab-my-app" 2
           [(tab_A, 1000); (tab_B, 1500)] ∅ (lookup_empty _) Hkeys).
Defined.

(** ** part_003: the renders that follow a check *)

Lemma renders_at_rest `{JsHost} (cfg : Config) (fuel : nat) (w : World) :
  Part003_react.renders cfg fuel (isLeader (hook w)) w = (Ok true, w).
Proof.
  destruct fuel; cbn [Part003_react.renders]; cbv [mbind M_bind gets];
    rewrite Bool.eqb_reflx; reflexivity.
Qed.

(** X12. part_003, a tab that is leader, on a store whose [removeItem]
    works: after a check and the renders that follow it the tab is leader
    again, whatever the store held, and the renders come to rest within two
    more. When the check found the live record of another tab and stepped
    down, the next render removes that record (its destructor was created
    while the tab led) and the check of the new effect claims the lead
    back. *)
Theorem part003_leader_never_yields `{JsHost} (cfg : Config) (w : World)
  (fuel : nat) :
  removeItem_throws (faults w) = false ->
  isLeader (hook w) = true ->
  let m := Part003_react.check_and_render cfg (S (S fuel)) in
  outcome m w = Ok true /\
  isLeader (hook (exec m w)) = true /\
  (isLeader (hook (exec (Part003.checkLeadership cfg) w)) = false ->
   items (exec m w) =
     (if setItem_throws (faults w) then delete (storageKey cfg) (items w)
      else <[storageKey cfg := own_record cfg (clock w)]> (items w))).
Proof.
  destruct w as [it [g s r] cl hi [l n c p] ti ca fi po co].
  cbn [faults removeItem_throws hook isLeader]. intros -> ->.
  unfold Part003_react.check_and_render, own_record.
  destruct cfg as [tab key tmo itv dbg chan].
  cbn [Part003_react.renders].
  destruct g, s; run_m; run_cfg; js_simpl.
  all: try (destruct (it !! key) as [[[|c0 s0]|v]|] eqn:Hit; run_m; js_simpl).
  all: try (destruct (truthy v) eqn:Hv,
        (minus_gt cl (ToNumber (get_prop v "timestamp")) tmo) eqn:Hm,
        (strict_eq_str (get_prop v "id") tab) eqn:Hs; run_m; js_simpl).
  all: repeat (progress (run_m; run_cfg; js_simpl;
                         cbv [JSON_stringify record_value nonempty_text];
                         cbn [lookup_prop String.eqb Ascii.eqb Bool.eqb negb
                              id timestamp];
                         rewrite ?lookup_insert_eq, ?lookup_delete_eq,
                           ?String.eqb_refl;
                         try rewrite Hit; try rewrite Hv; try rewrite Hm;
                         try rewrite Hs;
                         try match goal with
                             | |- context [?a <? ?b - ?b] =>
                                 destruct (a <? b - b)
                             end)).
  all: repeat match goal with
       | |- context [Part003_react.renders ?c ?f ?b ?w0] =>
           change (Part003_react.renders c f b w0)
             with (Part003_react.renders c f (isLeader (hook w0)) w0);
           rewrite (renders_at_rest c f w0)
       end.
  all: try (split; [reflexivity|split; [reflexivity|]]; intros Hf;
            try discriminate Hf).
  all: rewrite ?insert_delete_eq, ?insert_insert_eq; reflexivity.
Qed.

Lemma part003_leader_never_yields_witness :
  let w := page (Some record_B) healthy 3000 leader_hook in
  let m := @Part003_react.check_and_render plain_host tab_A 2 in
  isLeader (hook (exec (@Part003.checkLeadership plain_host tab_A) w)) = false /\
  outcome m w = Ok true /\
  isLeader (hook (exec m w)) = true /\
  items (exec m w) !! "single-tab-my-app" = Some (own_record tab_A 3000).
Proof.
  cbv zeta.
  destruct (@part003_leader_never_yields plain_host tab_A
              (page (Some record_B) healthy 3000 leader_hook) 0
              eq_refl eq_refl) as (Ho & Hl & Hi).
  split; [reflexivity|]. split; [exact Ho|]. split; [exact Hl|].
  rewrite (Hi eq_refl). reflexivity.
Defined.


(** ** The three versions of the check side by side *)

(** [JSON.parse] is reached and throws: the stored text is not empty and is
    not JSON. *)
Definition parse_throws (stored : option StorageValue) : bool :=
  match stored with
  | Some (Text (String _ _)) => true
  | _ => false
  end.

Definition renews (d : Decision) : bool :=
  match d with
  | Renew => true
  | _ => false
  end.

(** X13. The checks of part_001, part_002 and part_003 on the same page,
    where the check computes what JavaScript computes ([exact_check]).
    part_002 ends with the [isLeader] of part_001; its store is the store
    of part_001 unless the read failed ([getItem] or [JSON.parse] threw),
    in which case it writes nothing where part_001 writes its record.
    part_003 makes the calls of part_002 and leaves the same store; its
    [isLeader] is the one of part_002 except on a renewal that went
    through, where it keeps the value it had. *)
Theorem versions_decide_alike `{JsHost} (cfg : Config) (w : World) :
  exact_check cfg w = true ->
  let w1 := exec (Part001.checkLeadership cfg) w in
  let w2 := exec (Part002.checkLeadership cfg) w in
  let w3 := exec (Part003.checkLeadership cfg) w in
  let read_fails :=
    getItem_throws (faults w) || parse_throws (items w !! storageKey cfg) in
  let renewal :=
    negb read_fails && negb (setItem_throws (faults w)) &&
    renews (code_decision (read_record cfg w) (tabId cfg) (clock w)
              (timeout cfg)) in
  isLeader (hook w2) = isLeader (hook w1) /\
  items w2 = (if read_fails then items w else items w1) /\
  items w3 = items w2 /\
  calls w3 = calls w2 /\
  isLeader (hook w3)
  = (if renewal then isLeader (hook w) else isLeader (hook w2)).
Proof.
  intros _.
  destruct w as [it [g s r] cl hi [l n c p] ti ca fi po co].
  unfold parse_throws, read_record, code_decision.
  destruct cfg as [tab key tmo itv dbg chan].
  destruct dbg, g, s; run_m; run_cfg; js_simpl.
  all: try (destruct (it !! key) as [[[|c0 s0]|v]|]; run_m; js_simpl).
  all: try (destruct (truthy v),
        (minus_gt cl (ToNumber (get_prop v "timestamp")) tmo),
        (strict_eq_str (get_prop v "id") tab); run_m; js_simpl).
  all: cbn [renews]; repeat split; reflexivity.
Qed.

(** Tab A finds its own record, written at 0, at 3000: part_001 and part_002
    set [isLeader], part_003 renews and leaves [isLeader] as it was. *)
Lemma versions_decide_alike_witness :
  let w := page (Some (own_record tab_A 0)) healthy 3000 follower_hook in
  isLeader (hook (exec (@Part001.checkLeadership plain_host tab_A) w)) = true /\
  isLeader (hook (exec (@Part002.checkLeadership plain_host tab_A) w)) = true /\
  isLeader (hook (exec (@Part003.checkLeadership plain_host tab_A) w)) = false.
Proof.
  cbv zeta.
  destruct (@versions_decide_alike plain_host tab_A
              (page (Some (own_record tab_A 0)) healthy 3000 follower_hook)
              eq_refl) as (H21 & _ & _ & _ & H3).
  split; [reflexivity|]. split; [rewrite H21; reflexivity|exact H3].
Defined.

(** ** Stored text that is not JSON, in the short versions *)

(** The checks of several tabs, one after another on the same store; each
    tab has its own configuration and its own state. *)
Fixpoint checks_of (check : Config -> M unit) (tabs : list (Config * Hook))
  (w : World) : list World :=
  match tabs with
  | [] => []
  | (cfg, h) :: rest =>
      let w' := exec (check cfg) (seen_by h w) in
      w' :: checks_of check rest w'
  end.

Section Short_hooks.
Context `{JsHost}.

Lemma short_check_on_text (cfg : Config) (s : string) (w : World) :
  getItem_throws (faults w) = false ->
  items w !! storageKey cfg = Some (Text s) -> s <> "" ->
  let w2 := exec (Part002.checkLeadership cfg) w in
  let w3 := exec (Part003.checkLeadership cfg) w in
  (isLeader (hook w2) = true /\ items w2 = items w /\ faults w2 = faults w) /\
  (isLeader (hook w3) = true /\ items w3 = items w /\ faults w3 = faults w).
Proof.
  destruct w as [it [g s0 r] cl hi [l n c p] ti ca fi po co].
  destruct cfg as [tab key tmo itv dbg chan].
  cbn [faults getItem_throws items storageKey]. intros -> Hit Hs.
  destruct s as [|c0 s1]; [contradiction|].
  run_m; run_cfg. rewrite Hit. run_m; js_simpl. repeat split.
Qed.

End Short_hooks.

(** X14. part_002 and part_003, a key that holds a text that is not JSON:
    the checks of any number of tabs of the application, in any order and
    at any time, all end as leader and leave the store as it is. No check
    of these two versions ever replaces the text (part_001 overwrites it
    at its first check), so from then on every tab leads. *)
Theorem short_hooks_never_repair_text `{JsHost} (key s : string)
  (tabs : list (Config * Hook)) (w : World) :
  getItem_throws (faults w) = false ->
  items w !! key = Some (Text s) ->
  s <> "" ->
  Forall (fun t => storageKey (fst t) = key) tabs ->
  Forall (fun w' => isLeader (hook w') = true /\ items w' = items w)
    (checks_of Part002.checkLeadership tabs w) /\
  Forall (fun w' => isLeader (hook w') = true /\ items w' = items w)
    (checks_of Part003.checkLeadership tabs w).
Proof.
  intros Hg Hit Hs Hkeys. revert w Hg Hit.
  induction Hkeys as [|[cfg h] rest Hkey _ IH]; intros w Hg Hit;
    cbn [checks_of]; [split; constructor|].
  cbn [fst] in Hkey. subst key.
  assert (Hg' : getItem_throws (faults (seen_by h w)) = false)
    by (destruct w; exact Hg).
  assert (Hit' : items (seen_by h w) !! storageKey cfg = Some (Text s))
    by (destruct w; exact Hit).
  assert (Hi0 : items (seen_by h w) = items w) by (destruct w; reflexivity).
  assert (Hf0 : faults (seen_by h w) = faults w) by (destruct w; reflexivity).
  destruct (short_check_on_text cfg s (seen_by h w) Hg' Hit' Hs)
    as ((Hl2 & Hi2 & Hf2) & (Hl3 & Hi3 & Hf3)). cbv zeta in *.
  rewrite Hi0 in Hi2, Hi3. rewrite Hf0 in Hf2, Hf3.
  split; (constructor; [split; assumption|]).
  - destruct (IH (exec (Part002.checkLeadership cfg) (seen_by h w)))
      as [IH2 _]; [rewrite Hf2; exact Hg | rewrite Hi2; exact Hit |].
    rewrite Hi2 in IH2. exact IH2.
  - destruct (IH (exec (Part003.checkLeadership cfg) (seen_by h w)))
      as [_ IH3]; [rewrite Hf3; exact Hg | rewrite Hi3; exact Hit |].
    rewrite Hi3 in IH3. exact IH3.
Qed.


Lemma short_hooks_never_repair_text_witness :
  let w := page (Some (Text "not json")) healthy 3000 follower_hook in
  Forall (fun w' => isLeader (hook w') = true /\ items w' = items w)
    (checks_of (@Part002.checkLeadership plain_host)
       [(tab_A, follower_hook); (tab_B, follower_hook)] w).
Proof.
  cbv zeta.
  assert (Hkeys : Forall (fun t : Config * Hook =>
                            storageKey (fst t) = "single-tab-my-app")
                    [(tab_A, follower_hook); (tab_B, follower_hook)])
    by (repeat constructor).
  assert (Htext : "not json" <> "") by discriminate.
  destruct (@short_hooks_never_repair_text plain_host "single-tab-my-app"
              "not json" [(tab_A, follower_hook); (tab_B, follower_hook)]
              (page (Some (Text "not json")) healthy 3000 follower_hook)
              eq_refl eq_refl Htext Hkeys) as [H2 _].
  exact H2.
Defined.

(** ** Errors of the store outside the check, in the short versions *)

(** X15. part_002 and part_003 guard the check alone. [forceLeadership]
    lets the error of [setItem] out and then leaves [isLeader] as it was;
    the destructor of part_002 lets out the error of [getItem], of
    [JSON.parse] and of [removeItem]; the destructor of part_003 lets out
    the error of [removeItem]. In part_001 [forceLeadership] and the
    handler of [beforeunload] return whatever the store does; unmounting
    returns when there is no channel, and with a channel ends in the
    [InvalidStateError] of [postMessage], the channel being closed by the
    destructor that runs before [cleanup]. *)
Theorem short_hooks_let_store_errors_out (cfg : Config)
  (w : World) :
  let stored := items w !! storageKey cfg in
  let force2 := Part002.forceLeadership cfg in
  let force3 := Part003.forceLeadership cfg in
  let escaped := if setItem_throws (faults w)
                 then Throw QuotaExceededError else Ok tt in
  (outcome force2 w = escaped /\ outcome force3 w = escaped /\
   isLeader (hook (exec force2 w))
   = (if setItem_throws (faults w) then isLeader (hook w) else true) /\
   isLeader (hook (exec force3 w))
   = (if setItem_throws (faults w) then isLeader (hook w) else true)) /\
  outcome (Part002.effect_cleanup cfg) w
  = (if getItem_throws (faults w) then Throw SecurityError
     else if parse_throws stored then Throw SyntaxError
     else if owned_by (tabId cfg) (read_record cfg w)
             && removeItem_throws (faults w)
     then Throw SecurityError
     else Ok tt) /\
  outcome (Part003.unmount cfg) w
  = (if isLeader (hook w) && removeItem_throws (faults w)
     then Throw SecurityError else Ok tt) /\
  outcome (Part001.forceLeadership cfg) w = Ok tt /\
  outcome (Part001.handleBeforeUnload cfg) w = Ok tt /\
  outcome (Part001.unmount cfg) w
  = (if channel cfg then Throw InvalidStateError else Ok tt) /\
  items (exec (Part001.unmount cfg) w)
  = items (exec (Part001.handleBeforeUnload cfg) w).
Proof.
  destruct w as [it [g s r] cl hi [l n c p] ti ca fi po co].
  unfold parse_throws, owned_by, read_record.
  destruct cfg as [tab key tmo itv dbg chan].
  destruct dbg, chan, g, s, r, l; run_m; run_cfg; js_simpl.
  all: try (destruct (it !! key) as [[[|c0 s0]|v]|]; run_m; js_simpl).
  all: try (destruct (truthy v), (strict_eq_str (get_prop v "id") tab);
            run_m; js_simpl).
  all: repeat split; reflexivity.
Qed.

(** ** The helpers of src/src/utils.ts *)

(** X16. [isLocalStorageAvailable] never throws. It answers [true] exactly
    when neither [setItem] nor [removeItem] throws, and never calls
    [getItem]: a store that can be written and not read is reported
    available. Whatever the page kept under the probe key is lost when the
    probe succeeds; when [removeItem] alone fails the probe text stays in
    the store. Every other key is left alone. *)
Theorem storage_probe_answers_for_writes_only (w : World) :
  let test := "__localStorage_test__" in
  let w' := exec Utils.isLocalStorageAvailable w in
  let s := setItem_throws (faults w) in
  let r := removeItem_throws (faults w) in
  outcome Utils.isLocalStorageAvailable w = Ok (negb (s || r)) /\
  new_calls w w' =
    (SetItem test (Text test), outcome_of s)
    :: (if s then [] else [(RemoveItem test, outcome_of r)]) /\
  items w' = (if s then items w
              else if r then <[test := Text test]> (items w)
              else delete test (items w)) /\
  hook w' = hook w.
Proof.
  destruct w as [it [g s r] cl hi hk ti ca fi po co].
  cbv zeta. unfold Utils.isLocalStorageAvailable, new_calls.
  destruct s, r; run_m; js_simpl;
    rewrite <- ?app_assoc; cbn [app]; rewrite drop_app_length;
    rewrite ?delete_insert_eq; repeat split; reflexivity.
Qed.

(** X17. [getCurrentRecord] of part_001 reads the stored text the way
    [safeJsonParse] does with the fallback [null]: whenever [getItem]
    returns a text, the record it hands to the check is the result of
    [safeJsonParse] on that text, and neither of the two throws. *)
Theorem getCurrentRecord_is_a_safe_parse (cfg : Config) (w : World)
  (text : StorageValue) :
  getItem_throws (faults w) = false ->
  items w !! storageKey cfg = Some text ->
  outcome (Part001.getCurrentRecord cfg) w
  = outcome (Utils.safeJsonParse text JNull) w /\
  exists v, outcome (Utils.safeJsonParse text JNull) w = Ok v.
Proof.
  destruct w as [it [g s r] cl hi hk ti ca fi po co].
  cbn [faults getItem_throws items]. intros -> Hit.
  unfold Utils.safeJsonParse. run_m. rewrite Hit.
  destruct text as [[|c0 s0]|v], (debug cfg); run_m; js_simpl;
    (split; [reflexivity|eexists; reflexivity]).
Qed.

Lemma getCurrentRecord_is_a_safe_parse_witness :
  let w := page (Some (Text "not json")) healthy 3000 follower_hook in
  outcome (Part001.getCurrentRecord tab_A) w = Ok JNull.
Proof.
  cbv zeta.
  destruct (getCurrentRecord_is_a_safe_parse tab_A
              (page (Some (Text "not json")) healthy 3000 follower_hook)
              (Text "not json") eq_refl eq_refl) as [Heq _].
  rewrite Heq. reflexivity.
Defined.
